(** * Fabric_method.py: the song serializers and their factory method

    A shallow embedding of [src/Fabric_method.py]: the [Song] record, the four
    serializer classes ([SongSerializerBad],
    [SongSerializerWihoutSolidDependecies], [SongSerializerBasicFabric],
    [SongSerializerStatiocBasicFabric]) and the two library routines they
    call, [json.dumps] and [xml.etree.ElementTree] ([Element], [SubElement],
    [tostring]), as CPython 3.11 implements them.

    Python strings are sequences of Unicode code points, so a [str] is a
    [list N].  Exceptions are an explicit result type.  [ElementTree] builds
    its tree by allocating element objects and mutating them through
    references; that is kept: elements live in a store, the XML encoder
    allocates and updates them, and [tostring] reads the store.

    The round-trip properties are stated against a JSON parser
    ([json.loads]) and an XML parser ([xml.parse]), modelled for the
    documents this program writes.

    Contents: the data model, [json], [et], [xml], the four classes, the
    closed forms used in the statements; then the properties: the store,
    the dispatcher, the scenarios, the variants, determinism, the JSON
    round trip, the XML round trip, further properties of all four
    classes. *)

From Stdlib Require Import NArith ZArith String Ascii Lia.
From Stdlib Require Import DecimalFacts DecimalPos DecimalN DecimalZ.
From Stdlib.Strings Require Import Byte.
From stdpp Require Import base option list numbers strings.

Open Scope N_scope.

(** ** Python strings *)

(** A [str] is a sequence of code points; CPython keeps every code point
    below [0x110000] and allows lone surrogates. *)
Definition pystr := list N.

(** One-character literals: ["<"%cp] is the code point of [<]. *)
Definition cp_of_byte (b : byte) : N := Byte.to_N b.
Definition byte_of_cp (n : N) : option byte := Byte.of_N n.
Declare Scope cp_scope.
Delimit Scope cp_scope with cp.
String Notation N cp_of_byte byte_of_cp : cp_scope.

(** The double quote, which a string literal of this file cannot hold. *)
Abbreviation DQUOTE := 34 (only parsing).

(** [str "abc"]: an ASCII literal as a Python [str]. *)
Definition str (s : string) : pystr := map N_of_ascii (list_ascii_of_string s).
Arguments str : simpl never.

(** [sep.join(parts)] *)
Fixpoint join (sep : pystr) (parts : list pystr) : pystr :=
  match parts with
  | [] => []
  | [p] => p
  | p :: ps => p ++ sep ++ join sep ps
  end.

(** [old in text] and [text.replace(old, new)] for a one-character [old]. *)
Definition contains (old : N) (text : pystr) : bool := existsb (N.eqb old) text.

Definition replace (old : N) (new : pystr) (text : pystr) : pystr :=
  flat_map (fun c => if c =? old then new else [c]) text.

(** The code points of a well-formed [str]. *)
Definition wf_str (s : pystr) : Prop := Forall (fun c => c < 0x110000) s.

Definition is_high_surrogate (c : N) : bool := (0xd800 <=? c) && (c <=? 0xdbff).
Definition is_low_surrogate (c : N) : bool := (0xdc00 <=? c) && (c <=? 0xdfff).

(** ** Python values, exceptions, results *)

(** [Song.__init__] stores any object; the attributes this development
    covers are the ones a song is meant to hold: a [str] or an [int]. *)
Inductive pyval :=
  | PStr (s : pystr)
  | PInt (z : Z).

Inductive pyerr :=
  | ValueError (arg : pystr)
  | ValueError_int_max_str_digits
  | TypeError_cannot_serialize (v : pyval)
  | TypeError_positional (func : string) (takes given : nat)
  | NameError (name : string)
  | RecursionError
  | DanglingReference (ref : nat).

Inductive result (A : Type) :=
  | Ok (a : A)
  | Raise (e : pyerr).
Arguments Ok {A} a.
Arguments Raise {A} e.

#[global] Instance result_ret : MRet result := fun A a => Ok a.
#[global] Instance result_bind : MBind result := fun A B f m =>
  match m with
  | Ok a => f a
  | Raise e => Raise e
  end.

Fixpoint result_mapM {A B} (f : A -> result B) (l : list A) : result (list B) :=
  match l with
  | [] => Ok []
  | x :: l' => y ← f x; ys ← result_mapM f l'; Ok (y :: ys)
  end.

(** [bool(v)] for an attribute that may also be [None]. *)
Definition truthy (v : option pyval) : bool :=
  match v with
  | None => false
  | Some (PStr s) => negb (bool_decide (s = []))
  | Some (PInt z) => negb (z =? 0)%Z
  end.

(** The decimal text of an integer: its digits, after a [-] for a negative
    number. *)
Fixpoint uint_chars (u : Decimal.uint) : pystr :=
  match u with
  | Decimal.Nil => []
  | Decimal.D0 u => "0"%cp :: uint_chars u
  | Decimal.D1 u => "1"%cp :: uint_chars u
  | Decimal.D2 u => "2"%cp :: uint_chars u
  | Decimal.D3 u => "3"%cp :: uint_chars u
  | Decimal.D4 u => "4"%cp :: uint_chars u
  | Decimal.D5 u => "5"%cp :: uint_chars u
  | Decimal.D6 u => "6"%cp :: uint_chars u
  | Decimal.D7 u => "7"%cp :: uint_chars u
  | Decimal.D8 u => "8"%cp :: uint_chars u
  | Decimal.D9 u => "9"%cp :: uint_chars u
  end.

Definition int_chars (z : Z) : pystr :=
  match Z.to_int z with
  | Decimal.Pos u => uint_chars u
  | Decimal.Neg u => "-"%cp :: uint_chars u
  end.

(** The number of decimal digits of an integer, the sign not counted. *)
Definition int_nb_digits (z : Z) : nat :=
  match Z.to_int z with
  | Decimal.Pos u => Decimal.nb_digits u
  | Decimal.Neg u => Decimal.nb_digits u
  end.

(** [sys.int_max_str_digits], at its default. *)
Definition int_max_str_digits : nat := 4300.

(** [int.__repr__]: the decimal text; for an integer of more digits than
    [sys.int_max_str_digits] the conversion raises [ValueError]. *)
Definition int_repr (z : Z) : result pystr :=
  if (int_max_str_digits <? int_nb_digits z)%nat then Raise ValueError_int_max_str_digits
  else Ok (int_chars z).
Arguments int_repr : simpl never.

(** ** The record *)

(** [class Song]: [__init__] stores its three arguments as they come. *)
Record Song := Song_init { song_id : pyval; title : pyval; artist : pyval }.

(** ** The element store and the state monad *)

(** An [xml.etree.ElementTree.Element] object.  [text] is [None] until it is
    assigned; [children] are references into the store.  [tail] is never
    assigned by this program and is left out. *)
Record ElementObj := mkElementObj {
  tag : pystr;
  attrib : list (pystr * pyval);
  text : option pyval;
  children : list nat
}.

Definition set_text (v : pyval) (e : ElementObj) : ElementObj :=
  mkElementObj (tag e) (attrib e) (Some v) (children e).

Definition append_child (c : nat) (e : ElementObj) : ElementObj :=
  mkElementObj (tag e) (attrib e) (text e) (children e ++ [c]).

(** The store: an object reference is an index. *)
Definition heap := list ElementObj.

(** A computation reads and updates the store and returns or raises. *)
Definition M (A : Type) : Type := heap -> result A * heap.

#[global] Instance M_ret : MRet M := fun A a h => (Ok a, h).
#[global] Instance M_bind : MBind M := fun A B f m h =>
  match m h with
  | (Ok a, h') => f a h'
  | (Raise e, h') => (Raise e, h')
  end.

Definition raise {A} (e : pyerr) : M A := fun h => (Raise e, h).

(** A library call that does not touch the store. *)
Definition of_result {A} (r : result A) : M A := fun h => (r, h).

(** ** json *)

Module json.

(** ['{0:04x}'.format(n)], for the [n < 0x10000] the encoder formats. *)
Definition hexdigit (d : N) : N := nth (N.to_nat d) (str "0123456789abcdef") "0"%cp.

Definition format_04x (n : N) : pystr :=
  let d0 := n mod 16 in let n := n / 16 in
  let d1 := n mod 16 in let n := n / 16 in
  let d2 := n mod 16 in let n := n / 16 in
  let d3 := n mod 16 in
  [hexdigit d3; hexdigit d2; hexdigit d1; hexdigit d0].

(** [ESCAPE_ASCII]: a backslash, a double quote, or anything outside the
    printable ASCII range from the space to the tilde. *)
Definition ESCAPE_ASCII (c : N) : bool :=
  (c =? "\"%cp) || (c =? DQUOTE) || negb ((" "%cp <=? c) && (c <=? "~"%cp)).

(** [ESCAPE_DCT], with the [\u00XX] entries [setdefault] adds for the
    other control characters. *)
Definition ESCAPE_DCT (c : N) : option pystr :=
  match c with
  | "\"%cp => Some (str "\\")
  | DQUOTE => Some ["\"%cp; DQUOTE]
  | 8 => Some (str "\b")
  | 12 => Some (str "\f")
  | 10 => Some (str "\n")
  | 13 => Some (str "\r")
  | 9 => Some (str "\t")
  | _ => if c <? 0x20 then Some (str "\u" ++ format_04x c) else None
  end.

(** The [replace(match)] closure of [py_encode_basestring_ascii]. *)
Definition replace_match (c : N) : pystr :=
  match ESCAPE_DCT c with
  | Some e => e
  | None =>
      let n := c in
      if n <? 0x10000 then str "\u" ++ format_04x n
      else
        let n := n - 0x10000 in
        let s1 := N.lor 0xd800 (N.land (N.shiftr n 10) 0x3ff) in
        let s2 := N.lor 0xdc00 (N.land n 0x3ff) in
        str "\u" ++ format_04x s1 ++ str "\u" ++ format_04x s2
  end.

(** [ESCAPE_ASCII.sub(replace, s)] *)
Definition escape (s : pystr) : pystr :=
  flat_map (fun c => if ESCAPE_ASCII c then replace_match c else [c]) s.

Definition encode_basestring_ascii (s : pystr) : pystr :=
  [DQUOTE] ++ escape s ++ [DQUOTE].

(** A value: a [str] is escaped, an [int] is written by [int.__repr__],
    which may raise. *)
Definition encode_value (v : pyval) : result pystr :=
  match v with
  | PStr s => Ok (encode_basestring_ascii s)
  | PInt z => int_repr z
  end.

(** [json.dumps(obj)] for a [dict] with [str] keys, with the default
    separators [', '] and [': '] and [ensure_ascii=True]; the items come
    in insertion order. *)
Definition dumps (obj : list (pystr * pyval)) : result pystr :=
  items ← result_mapM
            (fun '(k, v) =>
               v ← encode_value v;
               Ok (encode_basestring_ascii k ++ str ": " ++ v))
            obj;
  Ok (str "{" ++ join (str ", ") items ++ str "}").

(** *** The decoder

    [json.loads], the standard parser that the round-trip property of the
    encoder is stated against, for the documents this program writes: one
    object whose members are strings or integers.  Any other JSON value
    (a nested object, an array, a float, [true], [false], [null]) is
    outside this fragment and gives [None], as a malformed document
    and an error of the parser do. *)

Definition is_whitespace (c : N) : bool :=
  (c =? " "%cp) || (c =? 9) || (c =? 10) || (c =? 13).

Fixpoint skip_whitespace (s : pystr) : pystr :=
  match s with
  | [] => []
  | c :: r => if is_whitespace c then skip_whitespace r else s
  end.

Definition hexval (c : N) : option N :=
  if ("0"%cp <=? c) && (c <=? "9"%cp) then Some (c - "0"%cp)
  else if ("a"%cp <=? c) && (c <=? "f"%cp) then Some (c - "a"%cp + 10)
  else if ("A"%cp <=? c) && (c <=? "F"%cp) then Some (c - "A"%cp + 10)
  else None.

(** [_decode_uXXXX]: exactly four hexadecimal digits. *)
Definition _decode_uXXXX (h3 h2 h1 h0 : N) : option N :=
  d3 ← hexval h3; d2 ← hexval h2; d1 ← hexval h1; d0 ← hexval h0;
  Some (((d3 * 16 + d2) * 16 + d1) * 16 + d0).

(** The [BACKSLASH] table of the decoder. *)
Definition BACKSLASH (esc : N) : option N :=
  match esc with
  | DQUOTE => Some DQUOTE
  | "\"%cp => Some "\"%cp
  | "/"%cp => Some "/"%cp
  | "b"%cp => Some 8
  | "f"%cp => Some 12
  | "n"%cp => Some 10
  | "r"%cp => Some 13
  | "t"%cp => Some 9
  | _ => None
  end.

(** [scanstring] in strict mode, from just after the opening quote: the
    decoded string and the input after the closing quote.  A [\uXXXX]
    escape of a high surrogate directly followed by a [\uXXXX] escape of
    a low surrogate is decoded to the one code point the pair encodes. *)
Fixpoint scanstring (s : pystr) : option (pystr * pystr) :=
  match s with
  | [] => None
  | c :: rest =>
      if c =? DQUOTE then Some ([], rest)
      else if c =? "\"%cp then
        match rest with
        | [] => None
        | esc :: rest1 =>
            if esc =? "u"%cp then
              match rest1 with
              | h3 :: h2 :: h1 :: h0 :: rest2 =>
                  uni ← _decode_uXXXX h3 h2 h1 h0;
                  let single := '(t, r) ← scanstring rest2; Some (uni :: t, r) in
                  if is_high_surrogate uni then
                    match rest2 with
                    | b :: u :: g3 :: g2 :: g1 :: g0 :: rest3 =>
                        if (b =? "\"%cp) && (u =? "u"%cp) then
                          uni2 ← _decode_uXXXX g3 g2 g1 g0;
                          if is_low_surrogate uni2 then
                            let uni :=
                              0x10000 + N.lor (N.shiftl (uni - 0xd800) 10) (uni2 - 0xdc00) in
                            '(t, r) ← scanstring rest3; Some (uni :: t, r)
                          else single
                        else single
                    | _ => single
                    end
                  else single
              | _ => None
              end
            else
              char ← BACKSLASH esc;
              '(t, r) ← scanstring rest1; Some (char :: t, r)
        end
      else if c <? 0x20 then None
      else '(t, r) ← scanstring rest; Some (c :: t, r)
  end.

(** The digits of a number, as a decimal numeral. *)
Fixpoint scan_digits (s : pystr) : Decimal.uint * pystr :=
  match s with
  | [] => (Decimal.Nil, [])
  | c :: r =>
      let '(u, r') := scan_digits r in
      match c with
      | "0"%cp => (Decimal.D0 u, r')
      | "1"%cp => (Decimal.D1 u, r')
      | "2"%cp => (Decimal.D2 u, r')
      | "3"%cp => (Decimal.D3 u, r')
      | "4"%cp => (Decimal.D4 u, r')
      | "5"%cp => (Decimal.D5 u, r')
      | "6"%cp => (Decimal.D6 u, r')
      | "7"%cp => (Decimal.D7 u, r')
      | "8"%cp => (Decimal.D8 u, r')
      | "9"%cp => (Decimal.D9 u, r')
      | _ => (Decimal.Nil, s)
      end
  end.

(** An integer: an optional minus sign, then [0] or digits that do not
    start with [0]; a fraction or an exponent would make it a float.  The
    digits are converted by [int], which raises [ValueError] when there are
    more than [sys.int_max_str_digits] of them. *)
Definition scan_int (s : pystr) : option (Z * pystr) :=
  let '(negative, s1) :=
    match s with
    | c :: r => if c =? "-"%cp then (true, r) else (false, s)
    | [] => (false, s)
    end in
  let '(u, rest) := scan_digits s1 in
  let grammar :=
    match u with
    | Decimal.Nil => false
    | Decimal.D0 Decimal.Nil => true
    | Decimal.D0 _ => false
    | _ => true
    end in
  let float :=
    match rest with
    | c :: _ => (c =? "."%cp) || (c =? "e"%cp) || (c =? "E"%cp)
    | [] => false
    end in
  if grammar && negb float then
    if (int_max_str_digits <? Decimal.nb_digits u)%nat then None
    else Some (Z.of_int (if negative then Decimal.Neg u else Decimal.Pos u), rest)
  else None.

Definition scan_value (s : pystr) : option (pyval * pystr) :=
  match s with
  | c :: r =>
      if c =? DQUOTE then '(t, r') ← scanstring r; Some (PStr t, r')
      else '(z, r') ← scan_int s; Some (PInt z, r')
  | [] => None
  end.

(** The members of an object, from the opening quote of a key up to and
    including the closing brace. *)
Fixpoint scan_members (fuel : nat) (s : pystr) : option (list (pystr * pyval) * pystr) :=
  match fuel with
  | O => None
  | S fuel =>
      match s with
      | c :: r =>
          if c =? DQUOTE then
            '(key, r) ← scanstring r;
            match skip_whitespace r with
            | c :: r =>
                if c =? ":"%cp then
                  '(value, r) ← scan_value (skip_whitespace r);
                  match skip_whitespace r with
                  | c :: r =>
                      if c =? "}"%cp then Some ([(key, value)], r)
                      else if c =? ","%cp then
                        '(ms, r) ← scan_members fuel (skip_whitespace r);
                        Some ((key, value) :: ms, r)
                      else None
                  | [] => None
                  end
                else None
            | [] => None
            end
          else None
      | [] => None
      end
  end.

(** [json.loads(s)] for a document that is one object: its members in
    document order. *)
Definition loads (s : pystr) : option (list (pystr * pyval)) :=
  match skip_whitespace s with
  | c :: r =>
      if c =? "{"%cp then
        '(obj, r) ←
          match skip_whitespace r with
          | c' :: r' =>
              if c' =? "}"%cp then Some ([], r')
              else scan_members (length r) (c' :: r')
          | [] => None
          end;
        match skip_whitespace r with
        | [] => Some obj
        | _ => None
        end
      else None
  | [] => None
  end.

End json.

(** ** xml.etree.ElementTree *)

Module et.

(** [et.Element(tag, attrib=...)]: a new element object. *)
Definition Element (tag : pystr) (attrib : list (pystr * pyval)) : M nat :=
  fun h => (Ok (length h), h ++ [mkElementObj tag attrib None []]).

(** [et.SubElement(parent, tag)]: a new element, appended to [parent]. *)
Definition SubElement (parent : nat) (tag : pystr) : M nat :=
  fun h =>
    let element := length h in
    (Ok element, alter (append_child element) parent (h ++ [mkElementObj tag [] None []])).

(** [element.text = v] *)
Definition assign_text (element : nat) (v : pyval) : M unit :=
  fun h => (Ok tt, alter (set_text v) element h).

(** [_raise_serialization_error]: a [TypeError] whose message is formatted
    from [repr(text)]; for an [int] that is [int.__repr__], and when it
    raises, its error is the one that leaves the function. *)
Definition _raise_serialization_error {A} (text : pyval) : result A :=
  match text with
  | PStr _ => Raise (TypeError_cannot_serialize text)
  | PInt z => _ ← int_repr z; Raise (TypeError_cannot_serialize text)
  end.

(** [if old in text: text = text.replace(old, new)] *)
Definition replace_if_in (old : N) (new : pystr) (text : pystr) : pystr :=
  if contains old text then replace old new text else text.

(** [_escape_cdata]; the membership test on [text] raises [TypeError] on
    an [int], which the [except] clause turns into the serialization
    error. *)
Definition _escape_cdata (text : pyval) : result pystr :=
  match text with
  | PStr text =>
      let text := replace_if_in "&"%cp (str "&amp;") text in
      let text := replace_if_in "<"%cp (str "&lt;") text in
      let text := replace_if_in ">"%cp (str "&gt;") text in
      Ok text
  | PInt _ => _raise_serialization_error text
  end.

Definition _escape_attrib (text : pyval) : result pystr :=
  match text with
  | PStr text =>
      let text := replace_if_in "&"%cp (str "&amp;") text in
      let text := replace_if_in "<"%cp (str "&lt;") text in
      let text := replace_if_in ">"%cp (str "&gt;") text in
      let text := replace_if_in DQUOTE (str "&quot;") text in
      let text := replace_if_in 13 (str "&#13;") text in
      let text := replace_if_in 10 (str "&#10;") text in
      let text := replace_if_in 9 (str "&#09;") text in
      Ok text
  | PInt _ => _raise_serialization_error text
  end.

(** [_serialize_xml(write, elem, qnames, None, short_empty_elements=True)]
    for elements with plain string tags and attribute names; what it
    passes to [write] is concatenated.  The recursion of the source is
    bounded by the interpreter's stack; here by [fuel]. *)
Fixpoint _serialize_xml (fuel : nat) (h : heap) (elem : nat) : result pystr :=
  match fuel with
  | O => Raise RecursionError
  | S fuel =>
      match h !! elem with
      | None => Raise (DanglingReference elem)
      | Some e =>
          items ← result_mapM
                    (fun '(k, v) =>
                       v ← _escape_attrib v;
                       Ok (str " " ++ k ++ str "=" ++ [DQUOTE] ++ v ++ [DQUOTE]))
                    (attrib e);
          if truthy (text e) || negb (bool_decide (children e = [])) then
            t ← (if truthy (text e)
                 then match text e with Some v => _escape_cdata v | None => Ok [] end
                 else Ok []);
            subs ← result_mapM (_serialize_xml fuel h) (children e);
            Ok (str "<" ++ tag e ++ concat items ++ str ">"
                ++ t ++ concat subs ++ str "</" ++ tag e ++ str ">")
          else
            Ok (str "<" ++ tag e ++ concat items ++ str " />")
      end
  end.

(** [et.tostring(element, encoding='unicode')]: no XML declaration is
    written for this encoding.  An acyclic tree in a store of [n] objects
    has depth at most [n]. *)
Definition tostring (element : nat) : M pystr :=
  fun h => (_serialize_xml (S (length h)) h element, h).

End et.

(** ** An XML parser

    The standard parser that the round-trip property of the XML encoder is
    stated against, after XML 1.0 (fifth edition): documents that are one
    element, built from start tags with attributes, end tags, empty-element
    tags, character data and references.  A prolog, comments, processing
    instructions, CDATA sections and a document type are outside this
    fragment and give [None], as a document that is not well-formed does. *)

Module xml.

(** Production [Char] (section 2.2). *)
Definition is_Char (c : N) : bool :=
  (c =? 9) || (c =? 10) || (c =? 13)
  || ((0x20 <=? c) && (c <=? 0xD7FF))
  || ((0xE000 <=? c) && (c <=? 0xFFFD))
  || ((0x10000 <=? c) && (c <=? 0x10FFFF)).

(** End-of-line handling (section 2.11): before parsing, a carriage
    return followed by a line feed, and any other carriage return, is
    translated to a single line feed. *)
Fixpoint normalize_eol (s : pystr) : pystr :=
  match s with
  | [] => []
  | c :: r =>
      if c =? 13 then
        10 :: match r with
              | c' :: r' => if c' =? 10 then normalize_eol r' else normalize_eol r
              | [] => []
              end
      else c :: normalize_eol r
  end.

(** Production [S]. *)
Definition is_S (c : N) : bool :=
  (c =? " "%cp) || (c =? 9) || (c =? 10) || (c =? 13).

Fixpoint skip_S (s : pystr) : pystr :=
  match s with
  | [] => []
  | c :: r => if is_S c then skip_S r else s
  end.

Definition between (lo hi c : N) : bool := (lo <=? c) && (c <=? hi).

(** Productions [NameStartChar] and [NameChar] (section 2.3). *)
Definition is_NameStartChar (c : N) : bool :=
  (c =? ":"%cp) || between "A"%cp "Z"%cp c || (c =? "_"%cp) || between "a"%cp "z"%cp c
  || between 0xC0 0xD6 c || between 0xD8 0xF6 c || between 0xF8 0x2FF c
  || between 0x370 0x37D c || between 0x37F 0x1FFF c || between 0x200C 0x200D c
  || between 0x2070 0x218F c || between 0x2C00 0x2FEF c || between 0x3001 0xD7FF c
  || between 0xF900 0xFDCF c || between 0xFDF0 0xFFFD c || between 0x10000 0xEFFFF c.

Definition is_NameChar (c : N) : bool :=
  is_NameStartChar c || (c =? "-"%cp) || (c =? "."%cp) || between "0"%cp "9"%cp c
  || (c =? 0xB7) || between 0x300 0x36F c || between 0x203F 0x2040 c.

Fixpoint scan_NameChars (s : pystr) : pystr * pystr :=
  match s with
  | [] => ([], [])
  | c :: r =>
      if is_NameChar c
      then let '(n, r') := scan_NameChars r in (c :: n, r')
      else ([], s)
  end.

Definition scan_Name (s : pystr) : option (pystr * pystr) :=
  match s with
  | [] => None
  | c :: r =>
      if is_NameStartChar c
      then let '(n, r') := scan_NameChars r in Some (c :: n, r')
      else None
  end.

Definition decval (c : N) : option N :=
  if between "0"%cp "9"%cp c then Some (c - "0"%cp) else None.

Fixpoint number (base : N) (digit : N -> option N) (acc : N) (s : pystr) : option N :=
  match s with
  | [] => Some acc
  | c :: r => d ← digit c; number base digit (acc * base + d) r
  end.

(** What a reference stands for, from the text between [&] and [;]: a
    character reference (section 4.1), which must name a [Char], or one
    of the five predefined entities (section 4.6). *)
Definition decode_reference (name : pystr) : option N :=
  match name with
  | 35 :: 120 :: d :: ds =>
      c ← number 16 json.hexval 0 (d :: ds); if is_Char c then Some c else None
  | 35 :: d :: ds =>
      c ← number 10 decval 0 (d :: ds); if is_Char c then Some c else None
  | _ =>
      if decide (name = str "lt") then Some "<"%cp
      else if decide (name = str "gt") then Some ">"%cp
      else if decide (name = str "amp") then Some "&"%cp
      else if decide (name = str "apos") then Some "'"%cp
      else if decide (name = str "quot") then Some DQUOTE
      else None
  end.

(** Character data and references of an element's content, up to the
    next markup.  [ref] holds the text of a reference being read. *)
Fixpoint scan_CharData (ref : option pystr) (s : pystr) : option (pystr * pystr) :=
  match s with
  | [] => match ref with None => Some ([], []) | Some _ => None end
  | c :: r =>
      match ref with
      | Some name =>
          if c =? ";"%cp then
            char ← decode_reference name;
            '(t, r') ← scan_CharData None r; Some (char :: t, r')
          else scan_CharData (Some (name ++ [c])) r
      | None =>
          if c =? "<"%cp then Some ([], s)
          else if c =? "&"%cp then scan_CharData (Some []) r
          else '(t, r') ← scan_CharData None r; Some (c :: t, r')
      end
  end.

(** An attribute value up to its closing quote [q], normalized
    (section 3.3.3): a literal white space character becomes a space, a
    referenced character is taken as it is. *)
Fixpoint scan_AttValue (q : N) (ref : option pystr) (s : pystr) : option (pystr * pystr) :=
  match s with
  | [] => None
  | c :: r =>
      match ref with
      | Some name =>
          if c =? ";"%cp then
            char ← decode_reference name;
            '(t, r') ← scan_AttValue q None r; Some (char :: t, r')
          else scan_AttValue q (Some (name ++ [c])) r
      | None =>
          if c =? q then Some ([], r)
          else if c =? "<"%cp then None
          else if c =? "&"%cp then scan_AttValue q (Some []) r
          else
            '(t, r') ← scan_AttValue q None r;
            Some ((if is_S c then " "%cp else c) :: t, r')
      end
  end.

Inductive node :=
  | Text (s : pystr)
  | Elem (name : pystr) (attributes : list (pystr * pystr)) (content : list node).

Inductive tag_close :=
  | StartTag       (* [>] *)
  | EmptyElemTag.  (* [/>] *)

(** The attributes of a tag and its closing; an attribute name appears
    once (section 3.1). *)
Fixpoint scan_attributes (fuel : nat) (s : pystr)
    : option (list (pystr * pystr) * tag_close * pystr) :=
  match fuel with
  | O => None
  | S fuel =>
      match skip_S s with
      | [] => None
      | c :: r =>
          if c =? ">"%cp then Some ([], StartTag, r)
          else if c =? "/"%cp then
            match r with
            | c' :: r' => if c' =? ">"%cp then Some ([], EmptyElemTag, r') else None
            | [] => None
            end
          else if match s with c0 :: _ => is_S c0 | [] => false end then
            '(name, r) ← scan_Name (c :: r);
            match skip_S r with
            | e :: r =>
                if e =? "="%cp then
                  match skip_S r with
                  | q :: r =>
                      if (q =? DQUOTE) || (q =? "'"%cp) then
                        '(value, r) ← scan_AttValue q None r;
                        '(attrs, close, r) ← scan_attributes fuel r;
                        if bool_decide (name ∈ attrs.*1) then None
                        else Some ((name, value) :: attrs, close, r)
                      else None
                  | [] => None
                  end
                else None
            | [] => None
            end
          else None
      end
  end.

(** Productions [element] and [content] (section 3).  [scan_content]
    stops in front of the end tag of the enclosing element. *)
Fixpoint scan_element (fuel : nat) (s : pystr) : option (node * pystr) :=
  match fuel with
  | O => None
  | S fuel =>
      match s with
      | c :: r =>
          if c =? "<"%cp then
            '(name, r) ← scan_Name r;
            '(attrs, close, r) ← scan_attributes fuel r;
            match close with
            | EmptyElemTag => Some (Elem name attrs [], r)
            | StartTag =>
                '(content, r) ← scan_content fuel r;
                match r with
                | lt :: sl :: r =>
                    if (lt =? "<"%cp) && (sl =? "/"%cp) then
                      '(name', r) ← scan_Name r;
                      if bool_decide (name' = name) then
                        match skip_S r with
                        | c :: r =>
                            if c =? ">"%cp then Some (Elem name attrs content, r) else None
                        | [] => None
                        end
                      else None
                    else None
                | _ => None
                end
            end
          else None
      | [] => None
      end
  end
with scan_content (fuel : nat) (s : pystr) : option (list node * pystr) :=
  match fuel with
  | O => None
  | S fuel =>
      '(t, r) ← scan_CharData None s;
      let chars := if bool_decide (t = []) then [] else [Text t] in
      match r with
      | lt :: c :: _ =>
          if negb (lt =? "<"%cp) then None
          else if c =? "/"%cp then Some (chars, r)
          else
            '(e, r) ← scan_element fuel r;
            '(rest, r) ← scan_content fuel r;
            Some (chars ++ e :: rest, r)
      | _ => None
      end
  end.

(** A document: every character is a [Char], line ends are normalized,
    then one element, and only white space after it. *)
Definition parse (document : pystr) : option node :=
  if forallb is_Char document then
    let s := normalize_eol document in
    '(root, r) ← scan_element (length s) s;
    match skip_S r with
    | [] => Some root
    | _ => None
    end
  else None.

Definition name_of (n : node) : pystr :=
  match n with
  | Text _ => []
  | Elem name _ _ => name
  end.

Definition attributes_of (n : node) : list (pystr * pystr) :=
  match n with
  | Text _ => []
  | Elem _ attrs _ => attrs
  end.

Definition content_of (n : node) : list node :=
  match n with
  | Text _ => []
  | Elem _ _ content => content
  end.

(** The text of an element: its character data, empty when it has none. *)
Definition text_of (n : node) : pystr :=
  flat_map (fun c => match c with Text s => s | Elem _ _ _ => [] end) (content_of n).

End xml.

(** ** The serializers *)

Abbreviation JSON := (str "JSON") (only parsing).
Abbreviation XML := (str "XML") (only parsing).

Module SongSerializerBad.

Definition serialize (song : Song) (format : pystr) : M pystr :=
  if decide (format = JSON) then
    let song_info := [(str "id", song_id song);
                      (str "title", title song);
                      (str "artist", artist song)] in
    of_result (json.dumps song_info)
  else if decide (format = XML) then
    song_info ← et.Element (str "song") [(str "id", song_id song)];
    title_element ← et.SubElement song_info (str "title");
    _ ← et.assign_text title_element (title song);
    artist_element ← et.SubElement song_info (str "artist");
    _ ← et.assign_text artist_element (artist song);
    et.tostring song_info
  else raise (ValueError format).

End SongSerializerBad.

Module SongSerializerWihoutSolidDependecies.

Definition _serialize_to_json (song : Song) : M pystr :=
  let payload := [(str "id", song_id song);
                  (str "title", title song);
                  (str "artist", artist song)] in
  of_result (json.dumps payload).

Definition _serialize_to_xml (song : Song) : M pystr :=
  song_element ← et.Element (str "song") [(str "id", song_id song)];
  title_element ← et.SubElement song_element (str "title");
  _ ← et.assign_text title_element (title song);
  artist_element ← et.SubElement song_element (str "artist");
  _ ← et.assign_text artist_element (artist song);
  et.tostring song_element.

Definition serialize (song : Song) (format : pystr) : M pystr :=
  if decide (format = JSON) then _serialize_to_json song
  else if decide (format = XML) then _serialize_to_xml song
  else raise (ValueError format).

End SongSerializerWihoutSolidDependecies.

Module SongSerializerBasicFabric.

Definition _serialize_to_json (song : Song) : M pystr :=
  let payload := [(str "id", song_id song);
                  (str "title", title song);
                  (str "artist", artist song)] in
  of_result (json.dumps payload).

Definition _serialize_to_xml (song : Song) : M pystr :=
  song_element ← et.Element (str "song") [(str "id", song_id song)];
  title_element ← et.SubElement song_element (str "title");
  _ ← et.assign_text title_element (title song);
  artist_element ← et.SubElement song_element (str "artist");
  _ ← et.assign_text artist_element (artist song);
  et.tostring song_element.

(** The factory method: it returns the bound method itself. *)
Definition _get_serializer (format : pystr) : M (Song -> M pystr) :=
  if decide (format = JSON) then mret _serialize_to_json
  else if decide (format = XML) then mret _serialize_to_xml
  else raise (ValueError format).

Definition serialize (song : Song) (format : pystr) : M pystr :=
  serializer ← _get_serializer format;
  serializer song.

End SongSerializerBasicFabric.

(** *** The last variant

    Its functions are written without [self] and without [@staticmethod],
    and their bodies still read the name [self]. *)

(** The names bound at module level when a method body runs; [self] is not
    a builtin either. *)
Definition module_globals : list string :=
  ["json"; "et"; "Song"; "SongSerializerBad"; "SongSerializerWihoutSolidDependecies";
   "SongSerializerBasicFabric"; "SongSerializerStatiocBasicFabric"]%string.

(** Loading a name: the function's locals, then the module's globals. *)
Definition load_name (locals : list string) (name : string) : M unit :=
  if bool_decide (name ∈ locals ++ module_globals) then mret tt
  else raise (NameError name).

(** How a function defined in a class body is reached. *)
Inductive receiver :=
  | OnClass      (* [SongSerializerStatiocBasicFabric.serialize(song, format)] *)
  | OnInstance.  (* [SongSerializerStatiocBasicFabric().serialize(song, format)] *)

(** Binding the arguments of a call: through an instance, the instance
    itself is passed first. *)
Definition call {A} (func : string) (params : list string) (via : receiver)
    (nargs : nat) (body : M A) : M A :=
  let given := match via with OnClass => nargs | OnInstance => S nargs end in
  if decide (given = length params) then body
  else raise (TypeError_positional func (length params) given).

Module SongSerializerStatiocBasicFabric.

Definition _serialize_to_json (song : Song) : M pystr :=
  let payload := [(str "id", song_id song);
                  (str "title", title song);
                  (str "artist", artist song)] in
  of_result (json.dumps payload).

Definition _serialize_to_xml (song : Song) : M pystr :=
  song_element ← et.Element (str "song") [(str "id", song_id song)];
  title_element ← et.SubElement song_element (str "title");
  _ ← et.assign_text title_element (title song);
  artist_element ← et.SubElement song_element (str "artist");
  _ ← et.assign_text artist_element (artist song);
  et.tostring song_element.

Definition _get_serializer (format : pystr) : M (Song -> M pystr) :=
  if decide (format = JSON) then
    _ ← load_name ["format"]%string "self"; mret _serialize_to_json
  else if decide (format = XML) then
    _ ← load_name ["format"]%string "self"; mret _serialize_to_xml
  else raise (ValueError format).

(** The body of [serialize(song, format)]: [self] is loaded first. *)
Definition serialize_body (song : Song) (format : pystr) : M pystr :=
  _ ← load_name ["song"; "format"]%string "self";
  serializer ← _get_serializer format;
  serializer song.

(** A call of [serialize] with the two arguments [song] and [format]. *)
Definition serialize (via : receiver) (song : Song) (format : pystr) : M pystr :=
  call "serialize" ["song"; "format"]%string via 2 (serialize_body song format).

End SongSerializerStatiocBasicFabric.


(** ** Closed forms used in the statements *)

(** A literal between double quotes. *)
Definition quoted (s : string) : pystr := [DQUOTE] ++ str s ++ [DQUOTE].

(** The escapes of the XML writer, character by character. *)
Definition cdata_entity (c : N) : pystr :=
  if c =? "&"%cp then str "&amp;"
  else if c =? "<"%cp then str "&lt;"
  else if c =? ">"%cp then str "&gt;"
  else [c].

Definition attrib_entity (c : N) : pystr :=
  if c =? "&"%cp then str "&amp;"
  else if c =? "<"%cp then str "&lt;"
  else if c =? ">"%cp then str "&gt;"
  else if c =? DQUOTE then str "&quot;"
  else if c =? 13 then str "&#13;"
  else if c =? 10 then str "&#10;"
  else if c =? 9 then str "&#09;"
  else [c].

(** What the writer emits for a child element that has no attributes and
    no children of its own. *)
Definition render_child (tag : pystr) (v : pyval) : result pystr :=
  if truthy (Some v) then
    t ← et._escape_cdata v;
    Ok (str "<" ++ tag ++ str ">" ++ t ++ str "</" ++ tag ++ str ">")
  else Ok (str "<" ++ tag ++ str " />").

(** The document [_serialize_to_xml] returns, or the error it raises. *)
Definition song_xml (song : Song) : result pystr :=
  i ← et._escape_attrib (song_id song);
  t ← render_child (str "title") (title song);
  a ← render_child (str "artist") (artist song);
  Ok (str "<song id=" ++ [DQUOTE] ++ i ++ [DQUOTE] ++ str ">" ++ t ++ a ++ str "</song>").

(** The three element objects [_serialize_to_xml] leaves in a store that
    held [n] objects before. *)
Definition song_elements (n : nat) (song : Song) : list ElementObj :=
  [mkElementObj (str "song") [(str "id", song_id song)] None [S n; S (S n)];
   mkElementObj (str "title") [] (Some (title song)) [];
   mkElementObj (str "artist") [] (Some (artist song)) []].

(** The dictionary the JSON encoders build. *)
Definition payload (song : Song) : list (pystr * pyval) :=
  [(str "id", song_id song); (str "title", title song); (str "artist", artist song)].

Definition is_str (v : pyval) : Prop :=
  match v with
  | PStr _ => True
  | PInt _ => False
  end.

(** The song of the scenarios. *)
Definition yesterday : Song :=
  Song_init (PStr (str "42")) (PStr (str "Yesterday")) (PStr (str "The Beatles")).

(** *** For the JSON round trip *)

(** What the JSON encoder writes for one character. *)
Definition escape_char (c : N) : pystr :=
  if json.ESCAPE_ASCII c then json.replace_match c else [c].

(** The integers [int.__repr__] converts: those of at most
    [int_max_str_digits] digits. *)
Definition int_fits (z : Z) : bool := (int_nb_digits z <=? int_max_str_digits)%nat.

(** The values [json.dumps] encodes: every string, and these integers. *)
Definition json_encodable (v : pyval) : bool :=
  match v with
  | PStr _ => true
  | PInt z => int_fits z
  end.

(** What [dumps] writes for a value it encodes, for one member of an
    object, and for the object. *)
Definition value_chars (v : pyval) : pystr :=
  match v with
  | PStr s => json.encode_basestring_ascii s
  | PInt z => int_chars z
  end.

Definition encode_member (m : pystr * pyval) : pystr :=
  json.encode_basestring_ascii m.1 ++ str ": " ++ value_chars m.2.

Definition dumps_chars (obj : list (pystr * pyval)) : pystr :=
  str "{" ++ join (str ", ") (map encode_member obj) ++ str "}".

(** A high surrogate directly followed by a low surrogate, as two code
    points of one [str]. *)
Fixpoint has_surrogate_pair (s : pystr) : bool :=
  match s with
  | [] => false
  | c :: r =>
      (is_high_surrogate c
       && match r with c' :: _ => is_low_surrogate c' | [] => false end)
      || has_surrogate_pair r
  end.

(** The strings the JSON round trip holds for: code points of a [str],
    with no such pair; and the values: these strings, and the integers
    that [int.__repr__] converts. *)
Definition json_text (s : pystr) : Prop := wf_str s ∧ has_surrogate_pair s = false.

Definition json_value (v : pyval) : Prop :=
  match v with
  | PStr s => json_text s
  | PInt z => int_fits z = true
  end.

(** [10 ^ n], given by its decimal numeral: [1], then [n] zeros. *)
Fixpoint zeros (n : nat) : Decimal.uint :=
  match n with
  | O => Decimal.Nil
  | S n => Decimal.D0 (zeros n)
  end.

Definition power_of_ten (n : nat) : Z := Z.of_int (Decimal.Pos (Decimal.D1 (zeros n))).

(** What may follow a value inside an object. *)
Definition delimiter (c : N) : Prop := c = ","%cp ∨ c = "}"%cp.

(** The input does not go on with the [\uXXXX] escape of a low surrogate. *)
Definition no_low_escape (T : pystr) : Prop :=
  ∀ g3 g2 g1 g0 rest3,
    T = "\"%cp :: "u"%cp :: g3 :: g2 :: g1 :: g0 :: rest3 ->
    ∃ uni2, json._decode_uXXXX g3 g2 g1 g0 = Some uni2 ∧ is_low_surrogate uni2 = false.

(** *** For the XML round trip *)

(** Production [Name], as a test. *)
Definition is_Name (name : pystr) : bool :=
  match name with
  | [] => false
  | c :: r => xml.is_NameStartChar c && forallb xml.is_NameChar r
  end.

(** A child element as the writer emits it for a string [t], and the node
    it stands for: an empty string gives an empty-element tag. *)
Definition child_xml (tg t : pystr) : pystr :=
  if bool_decide (t = []) then "<"%cp :: tg ++ [" "%cp; "/"%cp; ">"%cp]
  else "<"%cp :: tg ++ ">"%cp :: flat_map cdata_entity t ++ "<"%cp :: "/"%cp :: tg ++ [">"%cp].

Definition child_node (tg t : pystr) : xml.node :=
  xml.Elem tg [] (if bool_decide (t = []) then [] else [xml.Text t]).

(** The document of a song whose id, title and artist are the strings [i],
    [t] and [a], with every character of a field written through
    [attrib_entity] or [cdata_entity]; and the tree it stands for. *)
Definition song_doc (i t a : pystr) : pystr :=
  "<"%cp :: str "song" ++ " "%cp :: str "id" ++ "="%cp :: 34
  :: flat_map attrib_entity i ++ 34 :: ">"%cp
  :: child_xml (str "title") t ++ child_xml (str "artist") a
  ++ "<"%cp :: "/"%cp :: str "song" ++ [">"%cp].

Definition song_tree (i t a : pystr) : xml.node :=
  xml.Elem (str "song") [(str "id", i)]
    [child_node (str "title") t; child_node (str "artist") a].

(** *** For the further properties *)

(** What the XML writer accepts as the text of an element: a string, or an
    integer that is falsy. *)
Definition xml_text_ok (v : pyval) : Prop :=
  match v with
  | PStr _ => True
  | PInt z => z = 0%Z
  end.

(** The printable ASCII characters. *)
Definition printable (c : N) : bool := (" "%cp <=? c) && (c <=? "~"%cp).

(** Calls of the other functions of [SongSerializerStatiocBasicFabric],
    each with its one argument; [serialize] is above. *)
Module SongSerializerStatiocBasicFabric_call.

Definition _get_serializer (via : receiver) (format : pystr) : M (Song -> M pystr) :=
  call "_get_serializer" ["format"]%string via 1
    (SongSerializerStatiocBasicFabric._get_serializer format).

Definition _serialize_to_json (via : receiver) (song : Song) : M pystr :=
  call "_serialize_to_json" ["song"]%string via 1
    (SongSerializerStatiocBasicFabric._serialize_to_json song).

Definition _serialize_to_xml (via : receiver) (song : Song) : M pystr :=
  call "_serialize_to_xml" ["song"]%string via 1
    (SongSerializerStatiocBasicFabric._serialize_to_xml song).

End SongSerializerStatiocBasicFabric_call.

(** A string as the JSON parser returns it: every high surrogate directly
    followed by a low surrogate is replaced by the code point the pair
    encodes. *)
Fixpoint join_pairs (s : pystr) : pystr :=
  match s with
  | [] => []
  | c :: r =>
      match r with
      | c' :: r' =>
          if is_high_surrogate c && is_low_surrogate c'
          then 0x10000 + N.lor (N.shiftl (c - 0xd800) 10) (c' - 0xdc00) :: join_pairs r'
          else c :: join_pairs r
      | [] => [c]
      end
  end.

Definition join_value (v : pyval) : pyval :=
  match v with
  | PStr s => PStr (join_pairs s)
  | PInt z => PInt z
  end.

(** The values [json.dumps] encodes, a string with the code points of a
    [str]. *)
Definition wf_value (v : pyval) : Prop :=
  match v with
  | PStr s => wf_str s
  | PInt z => int_fits z = true
  end.

(** *** Tactics *)

(** Turn the string literals of the goal into lists of code points. *)
Ltac literals :=
  repeat match goal with
         | |- context [str ?s] =>
             let v := eval vm_compute in (str s) in
             replace (str s) with v by (vm_compute; reflexivity)
         end.

(** Nest the appends of the goal to the right. *)
Ltac right_nested := repeat first [rewrite <- !app_assoc | progress cbn [app]].

(** * Properties *)

#[local] Opaque str.

(** ** The element store *)

Section store.
Context {A : Type}.
Implicit Types (h l : list A) (f : A -> A).

Lemma alter_at_end f h l (i k : nat) :
  k = (length h + i)%nat -> alter f k (h ++ l) = h ++ alter f i l.
Proof. intros ->. apply alter_app_r. Qed.

Lemma lookup_at_end h l (i k : nat) :
  k = (length h + i)%nat -> (h ++ l) !! k = l !! i.
Proof. intros ->. rewrite lookup_app_r by lia. f_equal. lia. Qed.

End store.

(** A child element without attributes or children is written as
    [render_child] says, whatever else the store holds. *)
Lemma serialize_child fuel (H : heap) k tg v :
  H !! k = Some (mkElementObj tg [] (Some v) []) ->
  et._serialize_xml (S fuel) H k = render_child tg v.
Proof.
  intros E. unfold render_child. simpl. rewrite E. simpl.
  destruct v as [s|z]; simpl; [destruct (bool_decide (s = [])) | destruct (z =? 0)%Z];
    simpl; done.
Qed.

(** Two levels of recursion are all the writer needs for a song. *)
Lemma serialize_song fuel (h : heap) song :
  et._serialize_xml (S (S fuel)) (h ++ song_elements (length h) song) (length h)
  = song_xml song.
Proof.
  remember (S fuel) as fuel' eqn:Hf.
  simpl.
  rewrite (lookup_at_end h _ 0) by lia. simpl.
  unfold song_xml.
  destruct (et._escape_attrib (song_id song)) as [i|e]; simpl; [|done].
  subst fuel'.
  rewrite (serialize_child fuel _ (S (length h)) (str "title") (title song)).
  2:{ rewrite (lookup_at_end h _ 1) by lia. done. }
  rewrite (serialize_child fuel _ (S (S (length h))) (str "artist") (artist song)).
  2:{ rewrite (lookup_at_end h _ 2) by lia. done. }
  destruct (render_child (str "title") (title song)) as [t|e]; simpl; [|done].
  destruct (render_child (str "artist") (artist song)) as [a|e]; simpl; [|done].
  f_equal. rewrite !app_nil_r, <- !app_assoc. simpl. rewrite <- !app_assoc. simpl.
  vm_compute. reflexivity.
Qed.

(** The XML encoder allocates three elements and returns [song_xml]. *)
Lemma _serialize_to_xml_run song (h : heap) :
  SongSerializerBasicFabric._serialize_to_xml song h
  = (song_xml song, h ++ song_elements (length h) song).
Proof.
  unfold SongSerializerBasicFabric._serialize_to_xml, mbind, M_bind,
    et.Element, et.SubElement, et.assign_text, et.tostring.
  rewrite <- !app_assoc. cbn [app].
  rewrite (alter_at_end _ h _ 0) by lia. cbn [alter list_alter].
  rewrite !length_app. cbn [length].
  rewrite (alter_at_end _ h _ 1) by lia. cbn [alter list_alter].
  rewrite <- !app_assoc. cbn [app].
  rewrite (alter_at_end _ h _ 0) by lia. cbn [alter list_alter].
  rewrite !length_app. cbn [length].
  rewrite (alter_at_end _ h _ 2) by lia. cbn [alter list_alter].
  match goal with
  | |- (et._serialize_xml _ (h ++ ?l) _, _) = _ =>
      replace l with (song_elements (length h) song)
  end.
  - rewrite length_app. cbn [length song_elements].
    replace (length h + 3)%nat with (S (length h + 2)) by lia.
    by rewrite serialize_song.
  - unfold song_elements, append_child, set_text. simpl. repeat f_equal; lia.
Qed.

Lemma _serialize_to_json_run song (h : heap) :
  SongSerializerBasicFabric._serialize_to_json song h = (json.dumps (payload song), h).
Proof. reflexivity. Qed.

(** What [serialize] does, by format. *)
Lemma serialize_JSON song (h : heap) :
  SongSerializerBasicFabric.serialize song JSON h = (json.dumps (payload song), h).
Proof.
  unfold SongSerializerBasicFabric.serialize, SongSerializerBasicFabric._get_serializer.
  rewrite decide_True by done. apply _serialize_to_json_run.
Qed.

Lemma serialize_XML song (h : heap) :
  SongSerializerBasicFabric.serialize song XML h
  = (song_xml song, h ++ song_elements (length h) song).
Proof.
  unfold SongSerializerBasicFabric.serialize, SongSerializerBasicFabric._get_serializer.
  rewrite decide_False by (by vm_compute). rewrite decide_True by done.
  apply _serialize_to_xml_run.
Qed.

Lemma serialize_other song format (h : heap) :
  format ≠ JSON -> format ≠ XML ->
  SongSerializerBasicFabric.serialize song format h = (Raise (ValueError format), h).
Proof.
  intros HJ HX.
  unfold SongSerializerBasicFabric.serialize, SongSerializerBasicFabric._get_serializer.
  by rewrite !decide_False by done.
Qed.

(** [int.__repr__] and [json.dumps], by cases: the text, or the error of
    the first integer with too many digits. *)
Lemma int_repr_cases z :
  int_repr z
  = if int_fits z then Ok (int_chars z) else Raise ValueError_int_max_str_digits.
Proof.
  unfold int_repr, int_fits. rewrite Nat.ltb_antisym.
  by destruct (int_nb_digits z <=? int_max_str_digits)%nat.
Qed.

Lemma encode_value_cases v :
  json.encode_value v
  = if json_encodable v then Ok (value_chars v) else Raise ValueError_int_max_str_digits.
Proof. destruct v as [s|z]; [done|apply int_repr_cases]. Qed.

Lemma dumps_cases obj :
  json.dumps obj
  = if forallb (fun m => json_encodable m.2) obj then Ok (dumps_chars obj)
    else Raise ValueError_int_max_str_digits.
Proof.
  unfold json.dumps, dumps_chars.
  match goal with
  | |- context [result_mapM ?f obj] =>
      assert (result_mapM f obj
              = if forallb (fun m => json_encodable m.2) obj
                then Ok (map encode_member obj)
                else Raise ValueError_int_max_str_digits) as ->
  end.
  { induction obj as [|[k v] obj IH]; [done|].
    cbn [result_mapM forallb snd]. rewrite IH, encode_value_cases.
    destruct (json_encodable v); [|done]. cbn [mbind result_bind andb].
    by destruct (forallb _ obj). }
  by destruct (forallb _ obj).
Qed.

Lemma serialize_JSON_encodable song (h : heap) :
  json_encodable (song_id song) = true -> json_encodable (title song) = true ->
  json_encodable (artist song) = true ->
  SongSerializerBasicFabric.serialize song JSON h = (Ok (dumps_chars (payload song)), h).
Proof.
  intros Hi Ht Ha. rewrite serialize_JSON, dumps_cases. unfold payload.
  cbn [forallb snd]. by rewrite Hi, Ht, Ha.
Qed.

Lemma json_value_encodable v : json_value v -> json_encodable v = true.
Proof. by destruct v. Qed.

(** [power_of_ten n] is [10 ^ n] and has [n + 1] digits, so that
    [int.__repr__] converts it exactly when [n < int_max_str_digits]. *)
Lemma of_uint_acc_zeros n acc :
  Z.pos (Pos.of_uint_acc (zeros n) acc) = (Z.pos acc * 10 ^ Z.of_nat n)%Z.
Proof.
  revert acc. induction n as [|n IH]; intros acc.
  - cbn. lia.
  - cbn [zeros Pos.of_uint_acc]. rewrite IH, Nat2Z.inj_succ, Z.pow_succ_r by lia. lia.
Qed.

Lemma power_of_ten_spec n : power_of_ten n = (10 ^ Z.of_nat n)%Z.
Proof.
  unfold power_of_ten. cbn [Z.of_int Z.of_uint Pos.of_uint Z.of_N].
  rewrite of_uint_acc_zeros. lia.
Qed.

Lemma nb_digits_zeros n : Decimal.nb_digits (zeros n) = n.
Proof. induction n as [|n IH]; [done|]. cbn [zeros Decimal.nb_digits]. by rewrite IH. Qed.

Lemma int_nb_digits_power_of_ten n : int_nb_digits (power_of_ten n) = S n.
Proof.
  unfold int_nb_digits, power_of_ten. rewrite DecimalZ.to_of.
  cbn [Decimal.norm Decimal.unorm Decimal.nzhead Decimal.nb_digits].
  by rewrite nb_digits_zeros.
Qed.

Lemma int_fits_power_of_ten n :
  int_fits (power_of_ten n) = bool_decide (n < int_max_str_digits)%nat.
Proof.
  unfold int_fits. rewrite int_nb_digits_power_of_ten.
  case_bool_decide; [apply Nat.leb_le|apply Nat.leb_gt]; lia.
Qed.

Lemma int_fits_4300_zeros :
  int_fits (power_of_ten 4299) = true ∧ int_fits (power_of_ten 4300) = false.
Proof.
  rewrite !int_fits_power_of_ten.
  split; [apply bool_decide_eq_true_2|apply bool_decide_eq_false_2];
    unfold int_max_str_digits; lia.
Qed.

(** ** The dispatcher and the entry point *)

(** C1: for every song and every format tag other than ['JSON'] and
    ['XML'], [serialize] raises the error for an unsupported format,
    [ValueError], carrying the offending tag, and it is the very error the
    dispatcher [_get_serializer] raises: [serialize] neither catches nor
    wraps it.  The store is left as it was. *)
Theorem unsupported_format_raises (song : Song) (format : pystr) (h : heap) :
  format ≠ JSON -> format ≠ XML ->
  SongSerializerBasicFabric._get_serializer format h = (Raise (ValueError format), h)
  ∧ SongSerializerBasicFabric.serialize song format h = (Raise (ValueError format), h).
Proof.
  intros HJ HX. split; [|by apply serialize_other].
  unfold SongSerializerBasicFabric._get_serializer.
  by rewrite !decide_False by done.
Qed.

Lemma unsupported_format_raises_witness :
  (str "YAML" ≠ JSON ∧ str "YAML" ≠ XML)
  ∧ SongSerializerBasicFabric._get_serializer (str "YAML") []
    = (Raise (ValueError (str "YAML")), [])
  ∧ SongSerializerBasicFabric.serialize yesterday (str "YAML") []
    = (Raise (ValueError (str "YAML")), []).
Proof.
  assert (HJ : str "YAML" ≠ JSON) by (by vm_compute).
  assert (HX : str "YAML" ≠ XML) by (by vm_compute).
  split; [done|].
  exact (unsupported_format_raises yesterday (str "YAML") [] HJ HX).
Defined.

(** C10: the dispatcher recognizes a tag by exact, case-sensitive string
    comparison.  It returns an encoder exactly for ['JSON'] (the JSON
    encoder) and ['XML'] (the XML encoder); every other spelling takes the
    error branch, the lowercase ['json'] and ['xml'] among them. *)
Theorem get_serializer_exact (format : pystr) (h : heap) :
  ((∃ encoder, (SongSerializerBasicFabric._get_serializer format h).1 = Ok encoder)
     ↔ format = JSON ∨ format = XML)
  ∧ ((SongSerializerBasicFabric._get_serializer format h).1 = Raise (ValueError format)
     ↔ format ≠ JSON ∧ format ≠ XML)
  ∧ (SongSerializerBasicFabric._get_serializer JSON h).1
    = Ok SongSerializerBasicFabric._serialize_to_json
  ∧ (SongSerializerBasicFabric._get_serializer XML h).1
    = Ok SongSerializerBasicFabric._serialize_to_xml
  ∧ (SongSerializerBasicFabric._get_serializer (str "json") h).1
    = Raise (ValueError (str "json"))
  ∧ (SongSerializerBasicFabric._get_serializer (str "xml") h).1
    = Raise (ValueError (str "xml")).
Proof.
  unfold SongSerializerBasicFabric._get_serializer.
  split; [|split; [|split; [|split; [|split]]]].
  - split.
    + intros [encoder He]. repeat case_decide; auto. discriminate He.
    + intros [-> | ->].
      * rewrite decide_True by done. by eexists.
      * rewrite decide_False by (by vm_compute). rewrite decide_True by done. by eexists.
  - split.
    + intros He. split; intros ->.
      * rewrite decide_True in He by done. discriminate He.
      * rewrite decide_False in He by (by vm_compute).
        rewrite decide_True in He by done. discriminate He.
    + intros [HJ HX]. by rewrite !decide_False by done.
  - by rewrite decide_True.
  - rewrite decide_False by (by vm_compute). by rewrite decide_True.
  - by rewrite !decide_False by (by vm_compute).
  - by rewrite !decide_False by (by vm_compute).
Qed.

(** ** The two scenarios *)

(** C2: for the song with id [42], title [Yesterday] and artist
    [The Beatles], [serialize(song, 'JSON')] returns exactly
    [{"id": "42", "title": "Yesterday", "artist": "The Beatles"}]: the three
    keys in the order id, title, artist. *)
Theorem yesterday_JSON (h : heap) :
  (SongSerializerBasicFabric.serialize yesterday JSON h).1
  = Ok (str "{" ++ quoted "id" ++ str ": " ++ quoted "42" ++ str ", "
        ++ quoted "title" ++ str ": " ++ quoted "Yesterday" ++ str ", "
        ++ quoted "artist" ++ str ": " ++ quoted "The Beatles" ++ str "}").
Proof. rewrite serialize_JSON. vm_compute. reflexivity. Qed.

(** C3: for the same song, [serialize(song, 'XML')] returns exactly
    [<song id="42"><title>Yesterday</title><artist>The Beatles</artist></song>]:
    the root [song] with the attribute [id], then the children [title] and
    [artist], and no XML declaration in front. *)
Theorem yesterday_XML (h : heap) :
  (SongSerializerBasicFabric.serialize yesterday XML h).1
  = Ok (str "<song id=" ++ quoted "42"
        ++ str "><title>Yesterday</title><artist>The Beatles</artist></song>").
Proof. rewrite serialize_XML. vm_compute. reflexivity. Qed.

(** ** The variants *)

(** The first three classes compute the same function. *)
Lemma first_three_variants_agree song format (h : heap) :
  SongSerializerBad.serialize song format h
  = SongSerializerBasicFabric.serialize song format h
  ∧ SongSerializerWihoutSolidDependecies.serialize song format h
    = SongSerializerBasicFabric.serialize song format h.
Proof.
  unfold SongSerializerBad.serialize, SongSerializerWihoutSolidDependecies.serialize,
    SongSerializerBasicFabric.serialize, SongSerializerBasicFabric._get_serializer.
  repeat case_decide; done.
Qed.

(** C9: every call of [serialize] of [SongSerializerStatiocBasicFabric]
    raises, for every song and every format tag, ['JSON'] and ['XML']
    included.  Called on the class, the body reads the name [self], which
    is bound nowhere: [NameError].  Called on an instance, the instance is
    passed as a third argument to a function of two: [TypeError].  The
    variant never returns a string. *)
Theorem static_variant_always_raises (via : receiver) (song : Song) (format : pystr) (h : heap) :
  SongSerializerStatiocBasicFabric.serialize via song format h
  = (Raise match via with
           | OnClass => NameError "self"
           | OnInstance => TypeError_positional "serialize" 2 3
           end, h).
Proof. by destruct via. Qed.

(** C4, at the input where it fails: the first three variants agree on
    every input, but for the song of the scenarios and the format ['JSON']
    [SongSerializerBasicFabric] returns the JSON text while
    [SongSerializerStatiocBasicFabric] raises, however it is called. *)
Theorem static_variant_diverges :
  (∀ song format (h : heap),
     SongSerializerBad.serialize song format h
     = SongSerializerBasicFabric.serialize song format h
     ∧ SongSerializerWihoutSolidDependecies.serialize song format h
       = SongSerializerBasicFabric.serialize song format h)
  ∧ (SongSerializerBasicFabric.serialize yesterday JSON []).1
    = Ok (str "{" ++ quoted "id" ++ str ": " ++ quoted "42" ++ str ", "
          ++ quoted "title" ++ str ": " ++ quoted "Yesterday" ++ str ", "
          ++ quoted "artist" ++ str ": " ++ quoted "The Beatles" ++ str "}")
  ∧ (∀ via, ∃ e,
       (SongSerializerStatiocBasicFabric.serialize via yesterday JSON []).1 = Raise e).
Proof.
  split; [exact first_three_variants_agree|].
  split; [rewrite serialize_JSON; vm_compute; reflexivity|].
  intros via. destruct via; by eexists.
Qed.

(** ** The XML encoder on valid records *)

(** C5, as stated, fails: with an integer id the XML encoder raises
    [TypeError], because the writer tests an attribute value for the
    characters to escape and an [int] cannot be searched. *)
Lemma xml_integer_id_raises :
  (SongSerializerBasicFabric.serialize
     (Song_init (PInt 42) (PStr (str "Yesterday")) (PStr (str "The Beatles"))) XML []).1
  = Raise (TypeError_cannot_serialize (PInt 42)).
Proof. rewrite serialize_XML. vm_compute. reflexivity. Qed.

(** The error is a [TypeError] as long as the integer can be shown in its
    message; an id of more digits than [sys.int_max_str_digits] raises the
    [ValueError] of [int.__repr__] instead. *)
Lemma xml_big_integer_id_raises :
  (SongSerializerBasicFabric.serialize
     (Song_init (PInt (power_of_ten 4300)) (PStr (str "Yesterday"))
        (PStr (str "The Beatles"))) XML []).1
  = Raise ValueError_int_max_str_digits.
Proof.
  rewrite serialize_XML. cbn [fst]. unfold song_xml.
  cbn [song_id et._escape_attrib et._raise_serialization_error].
  rewrite int_repr_cases, (proj2 int_fits_4300_zeros). done.
Qed.

(** C5, amended: for every song whose id, title and artist are strings,
    [serialize(song, 'XML')] returns a string and raises nothing. *)
Theorem xml_encoder_succeeds_on_strings (song : Song) (h : heap) :
  is_str (song_id song) -> is_str (title song) -> is_str (artist song) ->
  ∃ s, (SongSerializerBasicFabric.serialize song XML h).1 = Ok s.
Proof.
  destruct song as [[i|?] [t|?] [a|?]]; simpl; try done. intros _ _ _.
  rewrite serialize_XML. unfold song_xml, render_child. simpl.
  destruct (bool_decide (t = [])), (bool_decide (a = [])); simpl; by eexists.
Qed.

Lemma xml_encoder_succeeds_on_strings_witness :
  ∃ s, (SongSerializerBasicFabric.serialize yesterday XML []).1 = Ok s.
Proof. exact (xml_encoder_succeeds_on_strings yesterday [] I I I). Defined.

(** ** Determinism *)

(** C8: the output of [serialize] depends on the song and the format
    alone, not on the store it runs in: two calls with the same song and
    format give the same string (or raise the same error), also when the
    second call runs in the store the first one left behind. *)
Theorem serialize_deterministic (song : Song) (format : pystr) (h h' : heap) :
  (SongSerializerBasicFabric.serialize song format h).1
  = (SongSerializerBasicFabric.serialize song format h').1.
Proof.
  destruct (decide (format = JSON)) as [->|HJ]; [by rewrite !serialize_JSON|].
  destruct (decide (format = XML)) as [->|HX]; [by rewrite !serialize_XML|].
  by rewrite !serialize_other.
Qed.


(** ** The JSON round trip *)

Lemma hexval_hexdigit d : d < 16 -> json.hexval (json.hexdigit d) = Some d.
Proof.
  intros Hd.
  assert (d = 0 ∨ d = 1 ∨ d = 2 ∨ d = 3 ∨ d = 4 ∨ d = 5 ∨ d = 6 ∨ d = 7 ∨ d = 8
          ∨ d = 9 ∨ d = 10 ∨ d = 11 ∨ d = 12 ∨ d = 13 ∨ d = 14 ∨ d = 15) as Hc by lia.
  repeat destruct Hc as [-> | Hc]; try subst d; vm_compute; reflexivity.
Qed.

Lemma div_mod_16 n : ∃ q r, n / 16 = q ∧ n mod 16 = r ∧ n = 16 * q + r ∧ r < 16.
Proof.
  exists (n / 16), (n mod 16). repeat split.
  - apply N.div_mod. lia.
  - apply N.mod_lt. lia.
Qed.

Lemma format_04x_decode n :
  ∃ h3 h2 h1 h0, json.format_04x n = [h3; h2; h1; h0]
    ∧ (n < 0x10000 -> json._decode_uXXXX h3 h2 h1 h0 = Some n).
Proof.
  unfold json.format_04x. do 4 eexists. split; [reflexivity|].
  intros Hn. unfold json._decode_uXXXX.
  rewrite !hexval_hexdigit by (apply N.mod_lt; lia). cbn [mbind option_bind].
  f_equal.
  destruct (div_mod_16 n) as (q1 & r1 & -> & -> & E1 & L1).
  destruct (div_mod_16 q1) as (q2 & r2 & -> & -> & E2 & L2).
  destruct (div_mod_16 q2) as (q3 & r3 & -> & -> & E3 & L3).
  rewrite (N.mod_small q3 16) by lia. lia.
Qed.

Lemma land_high_low k x : x < 1024 -> N.land (k * 1024) x = 0.
Proof.
  intros Hx. apply N.bits_inj; intros i. rewrite N.land_spec, N.bits_0.
  change 1024 with (2 ^ 10) in *. rewrite <- N.shiftl_mul_pow2.
  destruct (N.lt_ge_cases i 10) as [Hi|Hi].
  - by rewrite N.shiftl_spec_low.
  - destruct (N.eq_dec x 0) as [->|Hx0]; [by rewrite N.bits_0, andb_false_r|].
    rewrite (N.bits_above_log2 x i), andb_false_r; [done|].
    eapply N.lt_le_trans; [|exact Hi]. apply N.log2_lt_pow2; lia.
Qed.

Lemma lor_high_low k x : x < 1024 -> N.lor (k * 1024) x = k * 1024 + x.
Proof.
  intros Hx. pose proof (land_high_low k x Hx) as H0.
  by rewrite <- N.lxor_lor, <- N.add_nocarry_lxor.
Qed.

(** The surrogate pair the encoder writes for a code point above the BMP,
    in arithmetic. *)
Lemma surrogates_of n :
  n < 0x100000 ->
  N.lor 0xd800 (N.land (N.shiftr n 10) 0x3ff) = 0xd800 + n / 1024
  ∧ N.lor 0xdc00 (N.land n 0x3ff) = 0xdc00 + n mod 1024.
Proof.
  intros Hn.
  change 0x3ff with (N.ones 10). rewrite !N.land_ones, N.shiftr_div_pow2.
  change (2 ^ 10) with 1024.
  assert (n / 1024 < 1024) as Hq by (apply N.Div0.div_lt_upper_bound; lia).
  assert (n mod 1024 < 1024) as Hr by (apply N.mod_lt; lia).
  rewrite (N.mod_small (n / 1024)) by done.
  change 0xd800 with (54 * 1024). change 0xdc00 with (55 * 1024).
  by rewrite !lor_high_low.
Qed.

Lemma join_surrogates n :
  n < 0x100000 ->
  0x10000 + N.lor (N.shiftl (0xd800 + n / 1024 - 0xd800) 10) (0xdc00 + n mod 1024 - 0xdc00)
  = 0x10000 + n.
Proof.
  intros Hn.
  rewrite (N.add_comm 0xd800), (N.add_comm 0xdc00), !N.add_sub.
  rewrite N.shiftl_mul_pow2. change (2 ^ 10) with 1024.
  rewrite lor_high_low by (apply N.mod_lt; lia).
  f_equal. rewrite (N.div_mod n 1024) at 3 by lia. apply N.add_cancel_r, N.mul_comm.
Qed.

Lemma scanstring_end rest : json.scanstring (34 :: rest) = Some ([], rest).
Proof. reflexivity. Qed.

Lemma scanstring_plain c T :
  c ≠ 34 -> c ≠ "\"%cp -> 0x20 <= c ->
  json.scanstring (c :: T) = '(t, r) ← json.scanstring T; Some (c :: t, r).
Proof.
  intros H1 H2 H3. cbn [json.scanstring].
  rewrite (proj2 (N.eqb_neq c 34)), (proj2 (N.eqb_neq c 92)) by done.
  by rewrite (proj2 (N.ltb_ge c 32)).
Qed.

Lemma scanstring_short esc char T :
  esc ≠ "u"%cp -> json.BACKSLASH esc = Some char ->
  json.scanstring ("\"%cp :: esc :: T) = '(t, r) ← json.scanstring T; Some (char :: t, r).
Proof.
  intros H1 H2. cbn [json.scanstring].
  change (92 =? 34) with false. change (92 =? 92) with true. cbn match.
  rewrite (proj2 (N.eqb_neq esc 117)) by done. by rewrite H2.
Qed.

Lemma scanstring_u h3 h2 h1 h0 uni T :
  json._decode_uXXXX h3 h2 h1 h0 = Some uni ->
  (is_high_surrogate uni = true -> no_low_escape T) ->
  json.scanstring ("\"%cp :: "u"%cp :: h3 :: h2 :: h1 :: h0 :: T)
  = '(t, r) ← json.scanstring T; Some (uni :: t, r).
Proof.
  intros Hd Hs. cbn [json.scanstring].
  change (92 =? 34) with false. change (92 =? 92) with true.
  change (117 =? 117) with true. cbn match.
  rewrite Hd. cbn [mbind option_bind].
  destruct (is_high_surrogate uni); [|done].
  destruct T as [|b [|u [|g3 [|g2 [|g1 [|g0 rest3]]]]]]; try done.
  destruct (N.eqb_spec b 92) as [->|]; [|done].
  destruct (N.eqb_spec u 117) as [->|]; [|done].
  destruct (Hs eq_refl _ _ _ _ _ eq_refl) as (uni2 & -> & Hl).
  cbn [andb mbind option_bind]. by rewrite Hl.
Qed.

Lemma scanstring_pair h3 h2 h1 h0 g3 g2 g1 g0 uni uni2 T :
  json._decode_uXXXX h3 h2 h1 h0 = Some uni -> is_high_surrogate uni = true ->
  json._decode_uXXXX g3 g2 g1 g0 = Some uni2 -> is_low_surrogate uni2 = true ->
  json.scanstring ("\"%cp :: "u"%cp :: h3 :: h2 :: h1 :: h0
                   :: "\"%cp :: "u"%cp :: g3 :: g2 :: g1 :: g0 :: T)
  = '(t, r) ← json.scanstring T;
    Some (0x10000 + N.lor (N.shiftl (uni - 0xd800) 10) (uni2 - 0xdc00) :: t, r).
Proof.
  intros Hd Hh Hd2 Hl. cbn [json.scanstring].
  change (92 =? 34) with false. change (92 =? 92) with true.
  change (117 =? 117) with true. cbn match.
  rewrite Hd. cbn [mbind option_bind]. rewrite Hh.
  cbn [andb]. rewrite Hd2. cbn [mbind option_bind]. by rewrite Hl.
Qed.

Lemma ESCAPE_DCT_other c :
  c ≠ "\"%cp -> c ≠ 34 -> c ≠ 8 -> c ≠ 12 -> c ≠ 10 -> c ≠ 13 -> c ≠ 9 ->
  json.ESCAPE_DCT c = if c <? 0x20 then Some (str "\u" ++ json.format_04x c) else None.
Proof.
  intros. unfold json.ESCAPE_DCT.
  destruct c as [|p]; [done|].
  repeat (destruct p as [p|p|]; try done).
Qed.

Lemma escape_cons c s : json.escape (c :: s) = escape_char c ++ json.escape s.
Proof. reflexivity. Qed.

Lemma str_backslash_u : str "\u" = ["\"%cp; "u"%cp].
Proof. by vm_compute. Qed.

Lemma scanstring_char c T :
  c < 0x110000 ->
  (is_high_surrogate c = true -> no_low_escape T) ->
  json.scanstring (escape_char c ++ T) = '(t, r) ← json.scanstring T; Some (c :: t, r).
Proof.
  intros Hwf Hs. unfold escape_char, json.ESCAPE_ASCII.
  destruct (N.eqb_spec c 92) as [->|H92]; [by apply scanstring_short|].
  destruct (N.eqb_spec c 34) as [->|H34]; [by apply scanstring_short|].
  cbn [orb].
  destruct (N.leb_spec 32 c) as [Hlo|Hlo]; cbn [andb negb].
  - destruct (N.leb_spec c 126) as [Hhi|Hhi]; cbn [negb].
    + by apply scanstring_plain.
    + unfold json.replace_match.
      rewrite ESCAPE_DCT_other by lia.
      rewrite (proj2 (N.ltb_ge c 32)) by done.
      destruct (format_04x_decode c) as (h3 & h2 & h1 & h0 & E & D).
      destruct (N.ltb_spec c 0x10000) as [Hbmp|Hbmp].
      * rewrite E. by apply scanstring_u; auto.
      * cbv zeta.
        destruct (surrogates_of (c - 0x10000)) as [E1 E2]; [lia|].
        rewrite E1, E2. clear E1 E2.
        assert ((c - 0x10000) / 1024 < 1024) as Hq
          by (apply N.Div0.div_lt_upper_bound; lia).
        assert ((c - 0x10000) mod 1024 < 1024) as Hr by (apply N.mod_lt; lia).
        pose proof (join_surrogates (c - 0x10000) ltac:(lia)) as Hj.
        revert Hj. generalize ((c - 0x10000) / 1024) ((c - 0x10000) mod 1024) Hq Hr.
        intros q r Hq' Hr' Hj.
        destruct (format_04x_decode (0xd800 + q)) as (a3 & a2 & a1 & a0 & -> & D1).
        destruct (format_04x_decode (0xdc00 + r)) as (b3 & b2 & b1 & b0 & -> & D2).
        rewrite str_backslash_u, <- !app_assoc. cbn [app].
        rewrite (scanstring_pair a3 a2 a1 a0 b3 b2 b1 b0 (0xd800 + q) (0xdc00 + r));
          [ | apply D1; lia | | apply D2; lia | ].
        -- rewrite Hj. by replace (0x10000 + (c - 0x10000)) with c by lia.
        -- unfold is_high_surrogate. apply andb_true_intro; split; apply N.leb_le; lia.
        -- unfold is_low_surrogate. apply andb_true_intro; split; apply N.leb_le; lia.
  - unfold json.replace_match.
    destruct (N.eq_dec c 8) as [->|]; [by apply scanstring_short|].
    destruct (N.eq_dec c 12) as [->|]; [by apply scanstring_short|].
    destruct (N.eq_dec c 10) as [->|]; [by apply scanstring_short|].
    destruct (N.eq_dec c 13) as [->|]; [by apply scanstring_short|].
    destruct (N.eq_dec c 9) as [->|]; [by apply scanstring_short|].
    rewrite ESCAPE_DCT_other by done.
    rewrite (proj2 (N.ltb_lt c 32)) by done.
    destruct (format_04x_decode c) as (h3 & h2 & h1 & h0 & -> & D).
    apply scanstring_u; [apply D; lia|].
    intros Hh. unfold is_high_surrogate in Hh.
    apply andb_true_iff in Hh as [Hh _]. apply N.leb_le in Hh. lia.
Qed.

(** The shapes of what the encoder writes for one character. *)
Lemma escape_char_cases c :
  (escape_char c = [c] ∧ c ≠ "\"%cp)
  ∨ (∃ e, escape_char c = ["\"%cp; e] ∧ e ≠ "u"%cp)
  ∨ (∃ h3 h2 h1 h0 tail uni,
       escape_char c = "\"%cp :: "u"%cp :: h3 :: h2 :: h1 :: h0 :: tail
       ∧ json._decode_uXXXX h3 h2 h1 h0 = Some uni
       ∧ (uni = c ∨ is_high_surrogate uni = true)).
Proof.
  unfold escape_char, json.ESCAPE_ASCII.
  destruct (N.eqb_spec c 92) as [->|H92]; [right; left; exists 92; split; [by vm_compute | done]|].
  destruct (N.eqb_spec c 34) as [->|H34]; [right; left; exists 34; split; [by vm_compute | done]|].
  cbn [orb].
  destruct (N.leb_spec 32 c) as [Hlo|Hlo]; cbn [andb negb].
  - destruct (N.leb_spec c 126) as [Hhi|Hhi]; cbn [negb]; [by left|].
    right; right. unfold json.replace_match.
    rewrite ESCAPE_DCT_other by lia.
    rewrite (proj2 (N.ltb_ge c 32)) by done.
    destruct (N.ltb_spec c 0x10000) as [Hbmp|Hbmp].
    + destruct (format_04x_decode c) as (h3 & h2 & h1 & h0 & -> & D).
      exists h3, h2, h1, h0, [], c. rewrite str_backslash_u. auto.
    + cbv zeta.
      change 0x3ff with (N.ones 10). rewrite !N.land_ones.
      change (2 ^ 10) with 1024. change 0xd800 with (54 * 1024).
      rewrite lor_high_low by (apply N.mod_lt; lia).
      pose proof (N.mod_lt (N.shiftr (c - 65536) 10) 1024 ltac:(lia)) as Hq.
      revert Hq. generalize (N.shiftr (c - 65536) 10 mod 1024). intros q Hq.
      destruct (format_04x_decode (54 * 1024 + q)) as (h3 & h2 & h1 & h0 & -> & D).
      eexists h3, h2, h1, h0, _, (54 * 1024 + q). rewrite str_backslash_u.
      split; [reflexivity|]. split; [apply D; lia|]. right.
      unfold is_high_surrogate. apply andb_true_intro; split; apply N.leb_le; lia.
  - unfold json.replace_match.
    destruct (N.eq_dec c 8) as [->|]; [right; left; exists 98; split; [by vm_compute | done]|].
    destruct (N.eq_dec c 12) as [->|]; [right; left; exists 102; split; [by vm_compute | done]|].
    destruct (N.eq_dec c 10) as [->|]; [right; left; exists 110; split; [by vm_compute | done]|].
    destruct (N.eq_dec c 13) as [->|]; [right; left; exists 114; split; [by vm_compute | done]|].
    destruct (N.eq_dec c 9) as [->|]; [right; left; exists 116; split; [by vm_compute | done]|].
    right; right.
    rewrite ESCAPE_DCT_other by done.
    rewrite (proj2 (N.ltb_lt c 32)) by done.
    destruct (format_04x_decode c) as (h3 & h2 & h1 & h0 & -> & D).
    exists h3, h2, h1, h0, [], c. rewrite str_backslash_u.
    split; [reflexivity|]. split; [apply D; lia|]. by left.
Qed.

Lemma high_not_low c : is_high_surrogate c = true -> is_low_surrogate c = false.
Proof.
  unfold is_high_surrogate, is_low_surrogate. intros [_ H]%andb_true_iff.
  apply N.leb_le in H. apply andb_false_intro1, N.leb_gt. lia.
Qed.

Lemma no_low_escape_escape s rest :
  match s with c :: _ => is_low_surrogate c = false | [] => True end ->
  no_low_escape (json.escape s ++ 34 :: rest).
Proof.
  destruct s as [|c s]; intros Hc g3 g2 g1 g0 rest3 E; [discriminate E|].
  rewrite escape_cons, <- app_assoc in E.
  destruct (escape_char_cases c)
    as [[Ec Hne] | [(e & Ec & Hne) | (h3 & h2 & h1 & h0 & tail & uni & Ec & D & Hu)]];
    rewrite Ec in E; simplify_eq/=.
  exists uni. split; [done|]. destruct Hu as [->|Hu]; [done|by apply high_not_low].
Qed.

Lemma scanstring_escape s rest :
  wf_str s -> has_surrogate_pair s = false ->
  json.scanstring (json.escape s ++ 34 :: rest) = Some (s, rest).
Proof.
  induction s as [|c s IH]; intros Hwf Hp; [done|].
  apply Forall_cons in Hwf as [Hc Hwf].
  cbn [has_surrogate_pair] in Hp. apply orb_false_elim in Hp as [Hp Hps].
  rewrite escape_cons, <- app_assoc, scanstring_char, IH; try done.
  intros Hh. apply no_low_escape_escape. rewrite Hh in Hp.
  destruct s; [done|]. by destruct (is_low_surrogate n).
Qed.

(** *** Integers *)

Lemma scan_digits_stop c T :
  c < "0"%cp ∨ "9"%cp < c -> json.scan_digits (c :: T) = (Decimal.Nil, c :: T).
Proof.
  intros Hc. cbn [json.scan_digits]. destruct (json.scan_digits T) as [u r].
  destruct c as [|p]; [done|].
  repeat (destruct p as [p|p|]; try done; try lia).
Qed.

Lemma scan_digits_uint_chars u T :
  json.scan_digits T = (Decimal.Nil, T) ->
  json.scan_digits (uint_chars u ++ T) = (u, T).
Proof. intros HT. induction u; simpl; rewrite ?IHu; done. Qed.

Lemma to_uint_grammar p :
  match Pos.to_uint p with
  | Decimal.Nil => false
  | Decimal.D0 Decimal.Nil => true
  | Decimal.D0 _ => false
  | _ => true
  end = true.
Proof.
  pose proof (DecimalPos.Unsigned.to_uint_nonnil p) as Hnil.
  pose proof (DecimalN.Unsigned.to_of (Pos.to_uint p)) as Hn.
  rewrite DecimalPos.Unsigned.of_to in Hn. simpl in Hn.
  destruct (Pos.to_uint p) as [|u| | | | | | | | | ] eqn:E; try done.
  rewrite unorm_D0 in Hn. exfalso.
  destruct (Decimal.nzhead u) eqn:Hz;
    [ unfold Decimal.unorm in Hn; rewrite Hz in Hn;
      apply (DecimalPos.Unsigned.to_uint_nonzero p); rewrite E, Hn; by injection Hn as <-
    | rewrite unorm_nzhead in Hn by (by rewrite Hz);
      by apply (nzhead_nonzero u u) .. ].
Qed.

Lemma uint_chars_head u :
  u ≠ Decimal.Nil ->
  ∃ c r, uint_chars u = c :: r ∧ "0"%cp <= c <= "9"%cp.
Proof. destruct u; try done; intros _; do 2 eexists; (split; [reflexivity|lia]). Qed.

Lemma scan_int_chars z c T :
  int_fits z = true -> delimiter c ->
  json.scan_int (int_chars z ++ c :: T) = Some (z, c :: T).
Proof.
  intros Hfit Hc.
  unfold int_fits, int_nb_digits in Hfit.
  assert (json.scan_digits (c :: T) = (Decimal.Nil, c :: T)) as Hstop
    by (apply scan_digits_stop; destruct Hc as [-> | ->]; lia).
  assert (((c =? 46) || (c =? 101) || (c =? 69)) = false) as Hfloat
    by (by destruct Hc as [-> | ->]).
  pose proof (DecimalZ.of_to z) as Hz.
  unfold int_chars, json.scan_int.
  assert (∀ u, u ≠ Decimal.Nil ->
            match uint_chars u ++ c :: T with
            | c0 :: r => if c0 =? 45 then (true, r) else (false, uint_chars u ++ c :: T)
            | [] => (false, uint_chars u ++ c :: T)
            end = (false, uint_chars u ++ c :: T)) as Hsign.
  { intros u Hu. destruct (uint_chars_head u Hu) as (d & r & -> & Hd).
    cbn [app]. by rewrite (proj2 (N.eqb_neq d 45)) by lia. }
  destruct z as [|p|p]; simpl Z.to_int in *; cbv beta iota in Hfit |- *.
  - rewrite Hsign by done.
    rewrite scan_digits_uint_chars, Hfloat by done. cbn [andb negb].
    by rewrite Nat.ltb_antisym, Hfit, Hz.
  - rewrite Hsign by apply DecimalPos.Unsigned.to_uint_nonnil.
    rewrite scan_digits_uint_chars, to_uint_grammar, Hfloat by done.
    cbn [andb negb]. by rewrite Nat.ltb_antisym, Hfit, Hz.
  - cbn [app]. change (45 =? 45) with true. cbv iota.
    rewrite scan_digits_uint_chars, to_uint_grammar, Hfloat by done.
    cbn [andb negb]. by rewrite Nat.ltb_antisym, Hfit, Hz.
Qed.

(** *** Values, members, objects *)

Lemma int_chars_head z : ∃ d r, int_chars z = d :: r ∧ (d = "-"%cp ∨ "0"%cp <= d <= "9"%cp).
Proof.
  unfold int_chars. destruct z as [|p|p]; simpl Z.to_int; cbv beta iota.
  - exists "0"%cp, []. split; [done|lia].
  - destruct (uint_chars_head (Pos.to_uint p)) as (d & r & -> & Hd); [|by eauto].
    apply DecimalPos.Unsigned.to_uint_nonnil.
  - eauto.
Qed.

Lemma value_chars_head v :
  ∃ d r, value_chars v = d :: r ∧ (d = 34 ∨ d = "-"%cp ∨ "0"%cp <= d <= "9"%cp).
Proof.
  destruct v as [s|z]; simpl.
  - by eauto.
  - destruct (int_chars_head z) as (d & r & -> & Hd). exists d, r. tauto.
Qed.

Lemma skip_whitespace_value_chars v X :
  json.skip_whitespace (value_chars v ++ X) = value_chars v ++ X.
Proof.
  destruct (value_chars_head v) as (d & r & -> & Hd). cbn [app json.skip_whitespace].
  unfold json.is_whitespace.
  rewrite !(proj2 (N.eqb_neq d _)) by lia. done.
Qed.

Lemma scan_value_chars v c T :
  json_value v -> delimiter c ->
  json.scan_value (value_chars v ++ c :: T) = Some (v, c :: T).
Proof.
  intros Hv Hc. destruct v as [s|z]; cbn [json_value value_chars] in Hv |- *.
  - destruct Hv as [Hwf Hp]. unfold json.encode_basestring_ascii.
    cbn [app json.scan_value]. change (34 =? 34) with true. cbv iota.
    rewrite <- app_assoc. cbn [app].
    by rewrite scanstring_escape.
  - destruct (int_chars_head z) as (d & r & E & Hd).
    unfold json.scan_value. rewrite E. cbn [app].
    rewrite (proj2 (N.eqb_neq d 34)) by lia.
    by rewrite app_comm_cons, <- E, scan_int_chars.
Qed.

Lemma skip_whitespace_delimiter c T :
  delimiter c -> json.skip_whitespace (c :: T) = c :: T.
Proof. by intros [-> | ->]. Qed.

(** One member and what follows it. *)
Lemma scan_member fuel k v c R :
  json_text k -> json_value v -> delimiter c ->
  json.scan_members (S fuel) (encode_member (k, v) ++ c :: R)
  = if c =? "}"%cp then Some ([(k, v)], R)
    else '(ms, r) ← json.scan_members fuel (json.skip_whitespace R); Some ((k, v) :: ms, r).
Proof.
  intros [Hwf Hp] Hv Hc. unfold encode_member, json.encode_basestring_ascii.
  cbn [fst snd]. rewrite <- !app_assoc. cbn [app json.scan_members].
  change (34 =? 34) with true. cbv iota.
  rewrite scanstring_escape by done. cbn [mbind option_bind].
  replace (str ": ") with [":"%cp; " "%cp] by (by vm_compute).
  cbn [app json.skip_whitespace]. change (json.is_whitespace 58) with false.
  cbv iota. change (58 =? 58) with true. cbv iota.
  cbn [json.skip_whitespace]. change (json.is_whitespace 32) with true. cbv iota.
  rewrite skip_whitespace_value_chars, scan_value_chars by done.
  cbn [mbind option_bind]. rewrite skip_whitespace_delimiter by done.
  destruct Hc as [-> | ->]; done.
Qed.

Lemma skip_whitespace_encode_member m X :
  json.skip_whitespace (encode_member m ++ X) = encode_member m ++ X.
Proof. reflexivity. Qed.

Lemma join_cons sep p ps :
  ps ≠ [] -> join sep (p :: ps) = p ++ sep ++ join sep ps.
Proof. by destruct ps. Qed.

Lemma join_members_head obj :
  obj ≠ [] ->
  ∃ m Y, join (str ", ") (map encode_member obj) = encode_member m ++ Y.
Proof.
  destruct obj as [|m [|m' obj]]; intros Hne; [done| |].
  - exists m, []. by rewrite app_nil_r.
  - exists m. eexists. cbn [map]. by rewrite join_cons.
Qed.

Lemma scan_members_join obj fuel T :
  obj ≠ [] ->
  Forall (fun m => json_text m.1 ∧ json_value m.2) obj ->
  (length obj <= fuel)%nat ->
  json.scan_members fuel (join (str ", ") (map encode_member obj) ++ "}"%cp :: T)
  = Some (obj, T).
Proof.
  revert fuel. induction obj as [|[k v] obj IH]; intros fuel Hne Hall Hfuel; [done|].
  apply Forall_cons in Hall as [[Hk Hv] Hall]. cbn [fst snd] in *.
  destruct fuel as [|fuel]; [simpl in Hfuel; lia|].
  destruct (decide (obj = [])) as [->|Hobj].
  - cbn [map join]. rewrite scan_member by (done || by right). done.
  - rewrite map_cons, join_cons by (by destruct obj).
    rewrite <- !app_assoc.
    replace (str ", ") with [","%cp; " "%cp] at 1 by (by vm_compute). cbn [app].
    rewrite scan_member by (done || by left).
    change (44 =? 125) with false. cbv iota.
    cbn [json.skip_whitespace]. change (json.is_whitespace 32) with true. cbv iota.
    destruct (join_members_head obj Hobj) as (m & Y & E).
    rewrite E at 1. rewrite <- app_assoc, skip_whitespace_encode_member, app_assoc, <- E.
    rewrite IH; [done..|]. simpl in Hfuel. lia.
Qed.

Lemma length_join_members obj :
  (length obj <= length (join (str ", ") (map encode_member obj)))%nat.
Proof.
  induction obj as [|m obj IH]; [done|].
  destruct (decide (obj = [])) as [->|Hobj].
  - simpl. lia.
  - rewrite map_cons, join_cons by (by destruct obj).
    rewrite !length_app. unfold encode_member at 1, json.encode_basestring_ascii.
    rewrite !length_app. simpl. lia.
Qed.

Lemma loads_dumps_chars obj :
  Forall (fun m => json_text m.1 ∧ json_value m.2) obj ->
  json.loads (dumps_chars obj) = Some obj.
Proof.
  intros Hall. unfold dumps_chars, json.loads.
  replace (str "{") with ["{"%cp] by (by vm_compute).
  replace (str "}") with ["}"%cp] by (by vm_compute).
  cbn [app json.skip_whitespace]. change (json.is_whitespace 123) with false.
  cbv iota. change (123 =? 123) with true. cbv iota.
  destruct (decide (obj = [])) as [->|Hobj]; [done|].
  assert (∃ Z, join (str ", ") (map encode_member obj) = 34 :: Z) as [Z E].
  { destruct (join_members_head obj Hobj) as (m & Y & ->). by eexists. }
  pose proof (length_join_members obj) as Hlen.
  pose proof (scan_members_join obj
                (length (join (str ", ") (map encode_member obj) ++ [125])) []
                Hobj Hall) as Hscan.
  rewrite length_app in Hscan. specialize (Hscan ltac:(lia)).
  rewrite <- length_app in Hscan.
  rewrite E in Hscan |- *. cbn [app json.skip_whitespace] in Hscan |- *.
  change (json.is_whitespace 34) with false. cbv iota.
  change (34 =? 125) with false. cbv iota.
  by rewrite Hscan.
Qed.

(** Both conditions on a string are decidable by evaluation. *)
Lemma json_text_check s :
  forallb (fun c => c <? 0x110000) s && negb (has_surrogate_pair s) = true ->
  json_text s.
Proof.
  intros [Hwf Hp]%andb_true_iff. split; [|by apply negb_true_iff].
  apply Forall_forall. intros c Hc%list_elem_of_In.
  rewrite forallb_forall in Hwf. by apply N.ltb_lt, Hwf.
Qed.

Lemma json_text_keys :
  json_text (str "id") ∧ json_text (str "title") ∧ json_text (str "artist").
Proof. split_and!; apply json_text_check; vm_compute; reflexivity. Qed.


(** One more restriction is forced: an integer of more digits than
    [sys.int_max_str_digits] is not written at all.  With the id
    [10 ^ 4300], which has [4301] digits, [json.dumps] raises
    [ValueError]. *)
Lemma json_big_integer_raises :
  SongSerializerBasicFabric.serialize
    (Song_init (PInt (power_of_ten 4300)) (PStr (str "Yesterday"))
       (PStr (str "The Beatles"))) JSON []
  = (Raise ValueError_int_max_str_digits, []).
Proof.
  rewrite serialize_JSON, dumps_cases. unfold payload.
  cbn [forallb snd song_id json_encodable].
  by rewrite (proj2 int_fits_4300_zeros).
Qed.




(** ** The XML round trip *)

(** *** The escapes of the writer, character by character *)

Lemma replace_absent old new text :
  contains old text = false -> replace old new text = text.
Proof.
  induction text as [|c text IH]; [done|]. cbn [contains existsb].
  intros [Hc Ht]%orb_false_elim. unfold replace in *. cbn [flat_map].
  rewrite N.eqb_sym, Hc. cbn [app]. f_equal. by apply IH.
Qed.

Lemma replace_if_in_replace old new text :
  et.replace_if_in old new text = replace old new text.
Proof.
  unfold et.replace_if_in. destruct (contains old text) eqn:E; [done|].
  by rewrite replace_absent.
Qed.

Lemma replace_app old new s1 s2 :
  replace old new (s1 ++ s2) = replace old new s1 ++ replace old new s2.
Proof. apply flat_map_app. Qed.

Lemma replace_one old new c :
  replace old new [c] = if c =? old then new else [c].
Proof. unfold replace. cbn [flat_map]. apply app_nil_r. Qed.

Lemma _escape_cdata_PStr s :
  et._escape_cdata (PStr s) = Ok (flat_map cdata_entity s).
Proof.
  unfold et._escape_cdata. rewrite !replace_if_in_replace. f_equal.
  induction s as [|c s IH]; [done|].
  change (c :: s) with ([c] ++ s). rewrite !replace_app, IH. cbn [flat_map app].
  f_equal. rewrite replace_one. unfold cdata_entity.
  destruct (N.eqb_spec c 38) as [->|H1]; [by vm_compute|].
  rewrite replace_one.
  destruct (N.eqb_spec c 60) as [->|H2]; [by vm_compute|].
  by rewrite replace_one.
Qed.

Lemma _escape_attrib_PStr s :
  et._escape_attrib (PStr s) = Ok (flat_map attrib_entity s).
Proof.
  unfold et._escape_attrib. rewrite !replace_if_in_replace. f_equal.
  induction s as [|c s IH]; [done|].
  change (c :: s) with ([c] ++ s). rewrite !replace_app, IH. cbn [flat_map app].
  f_equal. rewrite replace_one. unfold attrib_entity.
  destruct (N.eqb_spec c 38) as [->|H1]; [by vm_compute|].
  rewrite replace_one.
  destruct (N.eqb_spec c 60) as [->|H2]; [by vm_compute|].
  rewrite replace_one.
  destruct (N.eqb_spec c 62) as [->|H3]; [by vm_compute|].
  rewrite replace_one.
  destruct (N.eqb_spec c 34) as [->|H4]; [by vm_compute|].
  rewrite replace_one.
  destruct (N.eqb_spec c 13) as [->|H5]; [by vm_compute|].
  rewrite replace_one.
  destruct (N.eqb_spec c 10) as [->|H6]; [by vm_compute|].
  by rewrite replace_one.
Qed.

(** *** Scanning names and references *)

Lemma scan_NameChars_app name c T :
  forallb xml.is_NameChar name = true -> xml.is_NameChar c = false ->
  xml.scan_NameChars (name ++ c :: T) = (name, c :: T).
Proof.
  intros Hn Hc. induction name as [|n name IH]; cbn [app xml.scan_NameChars].
  - by rewrite Hc.
  - cbn [forallb] in Hn. apply andb_true_iff in Hn as [-> Hn]. by rewrite IH.
Qed.

Lemma scan_Name_app name c T :
  is_Name name = true -> xml.is_NameChar c = false ->
  xml.scan_Name (name ++ c :: T) = Some (name, c :: T).
Proof.
  destruct name as [|n name]; [done|]. cbn [is_Name app xml.scan_Name].
  intros [-> Hn]%andb_true_iff Hc. by rewrite scan_NameChars_app.
Qed.

(** A reference, once its [&] is read: the characters up to the [;] are
    collected and decoded. *)
Lemma scan_CharData_reference acc name T :
  contains ";"%cp name = false ->
  xml.scan_CharData (Some acc) (name ++ ";"%cp :: T)
  = char ← xml.decode_reference (acc ++ name);
    '(t, r) ← xml.scan_CharData None T; Some (char :: t, r).
Proof.
  revert acc. induction name as [|n name IH]; intros acc Hn; cbn [app xml.scan_CharData].
  - change (59 =? 59) with true. cbv iota. by rewrite app_nil_r.
  - cbn [contains existsb] in Hn. apply orb_false_elim in Hn as [Hn0 Hn].
    rewrite N.eqb_sym, Hn0. rewrite IH by done.
    by rewrite <- app_assoc.
Qed.

Lemma scan_AttValue_reference q acc name T :
  contains ";"%cp name = false ->
  xml.scan_AttValue q (Some acc) (name ++ ";"%cp :: T)
  = char ← xml.decode_reference (acc ++ name);
    '(t, r) ← xml.scan_AttValue q None T; Some (char :: t, r).
Proof.
  revert acc. induction name as [|n name IH]; intros acc Hn; cbn [app xml.scan_AttValue].
  - change (59 =? 59) with true. cbv iota. by rewrite app_nil_r.
  - cbn [contains existsb] in Hn. apply orb_false_elim in Hn as [Hn0 Hn].
    rewrite N.eqb_sym, Hn0. rewrite IH by done.
    by rewrite <- app_assoc.
Qed.

(** Every escape of the writer is [&], a name, [;], and the name decodes to
    the character escaped. *)
Lemma cdata_entity_cases c :
  (cdata_entity c = [c] ∧ c ≠ "<"%cp ∧ c ≠ "&"%cp)
  ∨ (∃ name, cdata_entity c = ("&"%cp :: name) ++ [";"%cp]
       ∧ contains ";"%cp name = false ∧ xml.decode_reference name = Some c).
Proof.
  unfold cdata_entity.
  destruct (N.eqb_spec c 38) as [->|H1];
    [right; exists (str "amp"); split_and!; by vm_compute|].
  destruct (N.eqb_spec c 60) as [->|H2];
    [right; exists (str "lt"); split_and!; by vm_compute|].
  destruct (N.eqb_spec c 62) as [->|H3];
    [right; exists (str "gt"); split_and!; by vm_compute|].
  by left.
Qed.

Lemma attrib_entity_cases c :
  (attrib_entity c = [c] ∧ c ≠ "<"%cp ∧ c ≠ "&"%cp ∧ c ≠ 34 ∧ c ≠ 9 ∧ c ≠ 10 ∧ c ≠ 13)
  ∨ (∃ name, attrib_entity c = ("&"%cp :: name) ++ [";"%cp]
       ∧ contains ";"%cp name = false ∧ xml.decode_reference name = Some c).
Proof.
  unfold attrib_entity.
  destruct (N.eqb_spec c 38) as [->|H1];
    [right; exists (str "amp"); split_and!; by vm_compute|].
  destruct (N.eqb_spec c 60) as [->|H2];
    [right; exists (str "lt"); split_and!; by vm_compute|].
  destruct (N.eqb_spec c 62) as [->|H3];
    [right; exists (str "gt"); split_and!; by vm_compute|].
  destruct (N.eqb_spec c 34) as [->|H4];
    [right; exists (str "quot"); split_and!; by vm_compute|].
  destruct (N.eqb_spec c 13) as [->|H5];
    [right; exists (str "#13"); split_and!; by vm_compute|].
  destruct (N.eqb_spec c 10) as [->|H6];
    [right; exists (str "#10"); split_and!; by vm_compute|].
  destruct (N.eqb_spec c 9) as [->|H7];
    [right; exists (str "#09"); split_and!; by vm_compute|].
  by left.
Qed.

(** *** Character data and attribute values *)

Lemma scan_CharData_entity c T :
  xml.scan_CharData None (cdata_entity c ++ T)
  = '(t, r) ← xml.scan_CharData None T; Some (c :: t, r).
Proof.
  destruct (cdata_entity_cases c) as [(-> & H1 & H2) | (name & -> & Hn & Hd)].
  - cbn [app xml.scan_CharData].
    by rewrite (proj2 (N.eqb_neq c 60)), (proj2 (N.eqb_neq c 38)).
  - rewrite <- app_assoc. cbn [app xml.scan_CharData].
    change (38 =? 60) with false. change (38 =? 38) with true. cbv iota.
    rewrite scan_CharData_reference by done. cbn [app]. by rewrite Hd.
Qed.

Lemma scan_CharData_escaped s T :
  xml.scan_CharData None (flat_map cdata_entity s ++ "<"%cp :: T)
  = Some (s, "<"%cp :: T).
Proof.
  induction s as [|c s IH]; [done|].
  cbn [flat_map]. by rewrite <- app_assoc, scan_CharData_entity, IH.
Qed.

Lemma scan_AttValue_entity c T :
  xml.scan_AttValue 34 None (attrib_entity c ++ T)
  = '(t, r) ← xml.scan_AttValue 34 None T; Some (c :: t, r).
Proof.
  destruct (attrib_entity_cases c)
    as [(-> & H1 & H2 & H3 & H4 & H5 & H6) | (name & -> & Hn & Hd)].
  - cbn [app xml.scan_AttValue].
    rewrite (proj2 (N.eqb_neq c 34)), (proj2 (N.eqb_neq c 60)),
      (proj2 (N.eqb_neq c 38)) by done.
    replace (if xml.is_S c then " "%cp else c) with c; [done|].
    unfold xml.is_S.
    rewrite (proj2 (N.eqb_neq c 9)), (proj2 (N.eqb_neq c 10)),
      (proj2 (N.eqb_neq c 13)) by done.
    rewrite !orb_false_r. by destruct (N.eqb_spec c 32).
  - rewrite <- app_assoc. cbn [app xml.scan_AttValue].
    change (38 =? 34) with false. change (38 =? 60) with false.
    change (38 =? 38) with true. cbv iota.
    rewrite scan_AttValue_reference by done. cbn [app]. by rewrite Hd.
Qed.

Lemma scan_AttValue_escaped s T :
  xml.scan_AttValue 34 None (flat_map attrib_entity s ++ 34 :: T) = Some (s, T).
Proof.
  induction s as [|c s IH]; [done|].
  cbn [flat_map]. by rewrite <- app_assoc, scan_AttValue_entity, IH.
Qed.

(** *** Elements *)

Lemma scan_attributes_start fuel T :
  xml.scan_attributes (S fuel) (">"%cp :: T) = Some ([], xml.StartTag, T).
Proof. reflexivity. Qed.

Lemma scan_attributes_empty fuel T :
  xml.scan_attributes (S fuel) (" "%cp :: "/"%cp :: ">"%cp :: T)
  = Some ([], xml.EmptyElemTag, T).
Proof. reflexivity. Qed.

(** One attribute in double quotes, written as the writer does. *)
Lemma scan_attributes_one fuel name value T :
  is_Name name = true ->
  xml.scan_attributes (S (S fuel))
    (" "%cp :: name ++ "="%cp :: 34 :: flat_map attrib_entity value ++ 34 :: ">"%cp :: T)
  = Some ([(name, value)], xml.StartTag, T).
Proof.
  intros Hname. remember (S fuel) as fuel' eqn:Hf.
  destruct name as [|n name]; [done|].
  cbn [xml.scan_attributes xml.skip_S]. change (xml.is_S 32) with true. cbv iota.
  assert (xml.is_S n = false ∧ (n =? 62) = false ∧ (n =? 47) = false) as (Hs & H1 & H2).
  { cbn [is_Name] in Hname. apply andb_true_iff in Hname as [Hn _].
    split_and!; apply not_true_is_false; intros Hx.
    - unfold xml.is_S in Hx. repeat apply orb_true_iff in Hx as [Hx|Hx];
        apply N.eqb_eq in Hx; subst n; by vm_compute in Hn.
    - apply N.eqb_eq in Hx; subst n; by vm_compute in Hn.
    - apply N.eqb_eq in Hx; subst n; by vm_compute in Hn. }
  cbn [app xml.skip_S]. rewrite Hs, H1, H2.
  rewrite app_comm_cons, scan_Name_app by done. cbn [mbind option_bind].
  cbn [xml.skip_S]. change (xml.is_S 61) with false. cbv iota.
  change (61 =? 61) with true. cbv iota.
  cbn [xml.skip_S]. change (xml.is_S 34) with false. cbv iota.
  change ((34 =? 34) || (34 =? 39)) with true. cbv iota.
  rewrite scan_AttValue_escaped. cbn [mbind option_bind].
  subst fuel'. rewrite scan_attributes_start. cbn [mbind option_bind].
  done.
Qed.

Lemma render_child_PStr tg t : render_child tg (PStr t) = Ok (child_xml tg t).
Proof.
  unfold render_child, child_xml, truthy.
  destruct (bool_decide (t = [])); cbn [negb].
  - literals. done.
  - rewrite _escape_cdata_PStr. cbn [mbind result_bind]. literals.
    done.
Qed.

Lemma scan_child fuel tg t T :
  is_Name tg = true ->
  xml.scan_element (S (S fuel)) (child_xml tg t ++ T) = Some (child_node tg t, T).
Proof.
  intros Hname. remember (S fuel) as fuel' eqn:Hf.
  unfold child_xml, child_node. case_bool_decide as Ht.
  - cbn [app xml.scan_element]. change (60 =? 60) with true. cbv iota.
    rewrite <- app_assoc. cbn [app].
    rewrite scan_Name_app by done. cbn [mbind option_bind].
    subst fuel'. by rewrite scan_attributes_empty.
  - cbn [app xml.scan_element]. change (60 =? 60) with true. cbv iota.
    rewrite <- app_assoc. cbn [app].
    rewrite scan_Name_app by done. cbn [mbind option_bind].
    subst fuel'. rewrite scan_attributes_start. cbn [mbind option_bind].
    cbn [xml.scan_content]. rewrite <- app_assoc. cbn [app].
    rewrite scan_CharData_escaped. cbn [mbind option_bind].
    rewrite bool_decide_false by done.
    change (negb (60 =? 60)) with false. change (47 =? 47) with true. cbv iota.
    cbn [mbind option_bind]. change ((60 =? 60) && (47 =? 47)) with true. cbv iota.
    rewrite <- app_assoc. cbn [app].
    rewrite scan_Name_app by done. cbn [mbind option_bind].
    rewrite bool_decide_true by done. done.
Qed.

Lemma child_xml_head tg t :
  is_Name tg = true ->
  ∃ c r, child_xml tg t = "<"%cp :: c :: r ∧ c ≠ "/"%cp.
Proof.
  destruct tg as [|c tg]; [done|]. cbn [is_Name]. intros [Hc _]%andb_true_iff.
  assert (c ≠ 47) by (intros ->; by vm_compute in Hc).
  unfold child_xml. case_bool_decide; cbn [app]; eauto.
Qed.

Lemma scan_content_end fuel T :
  xml.scan_content (S fuel) ("<"%cp :: "/"%cp :: T) = Some ([], "<"%cp :: "/"%cp :: T).
Proof. reflexivity. Qed.

Lemma scan_content_child fuel tg t X :
  is_Name tg = true ->
  xml.scan_content (S (S (S fuel))) (child_xml tg t ++ X)
  = '(rest, r) ← xml.scan_content (S (S fuel)) X; Some (child_node tg t :: rest, r).
Proof.
  intros Hname. remember (S (S fuel)) as fuel' eqn:Hf.
  destruct (child_xml_head tg t Hname) as (c & r & E & Hc).
  cbn [xml.scan_content]. rewrite E at 1. cbn [app xml.scan_CharData].
  change (60 =? 60) with true. cbv iota. cbn [mbind option_bind].
  rewrite bool_decide_true by done.
  change (negb true) with false. cbv iota.
  rewrite (proj2 (N.eqb_neq c 47)) by done.
  rewrite app_comm_cons, app_comm_cons, <- E. subst fuel'.
  rewrite scan_child by done. cbn [mbind option_bind]. done.
Qed.

Lemma song_xml_PStr i t a :
  song_xml (Song_init (PStr i) (PStr t) (PStr a)) = Ok (song_doc i t a).
Proof.
  unfold song_xml, song_doc. cbn [song_id title artist].
  rewrite _escape_attrib_PStr, !render_child_PStr. cbn [mbind result_bind].
  reflexivity.
Qed.

Lemma scan_song fuel i t a T :
  xml.scan_element (5 + fuel) (song_doc i t a ++ T) = Some (song_tree i t a, T).
Proof.
  change (5 + fuel)%nat with (S (S (S (S (S fuel))))).
  remember (S (S fuel)) as f2 eqn:Hf2. remember (S (S f2)) as f4 eqn:Hf4.
  unfold song_doc, song_tree. right_nested.
  cbn [xml.scan_element]. change (60 =? 60) with true. cbv iota.
  rewrite scan_Name_app by (by vm_compute). cbn [mbind option_bind].
  subst f4.
  rewrite scan_attributes_one by (by vm_compute). cbn [mbind option_bind].
  subst f2.
  rewrite scan_content_child by (by vm_compute).
  rewrite scan_content_child by (by vm_compute).
  rewrite scan_content_end. cbn [mbind option_bind].
  change ((60 =? 60) && (47 =? 47)) with true. cbv iota.
  rewrite scan_Name_app by (by vm_compute). cbn [mbind option_bind].
  rewrite bool_decide_true by done. done.
Qed.

(** *** Documents *)

Lemma forallb_flat_map {A B} (P : B -> bool) (Q : A -> bool) (f : A -> list B) (l : list A) :
  (∀ x, Q x = true -> forallb P (f x) = true) ->
  forallb Q l = true -> forallb P (flat_map f l) = true.
Proof.
  intros Hf. induction l as [|x l IH]; [done|]. cbn [forallb flat_map].
  intros [Hx Hl]%andb_true_iff. rewrite forallb_app, Hf, IH; done.
Qed.

Lemma is_Char_attrib_entity c :
  xml.is_Char c = true -> forallb xml.is_Char (attrib_entity c) = true.
Proof.
  intros Hc. unfold attrib_entity.
  repeat (destruct (_ =? _); [by vm_compute|]). cbn [forallb]. by rewrite Hc.
Qed.

Lemma is_Char_cdata_entity c :
  xml.is_Char c = true -> forallb xml.is_Char (cdata_entity c) = true.
Proof.
  intros Hc. unfold cdata_entity.
  repeat (destruct (_ =? _); [by vm_compute|]). cbn [forallb]. by rewrite Hc.
Qed.

Lemma is_Char_child_xml tg t :
  forallb xml.is_Char tg = true -> forallb xml.is_Char t = true ->
  forallb xml.is_Char (child_xml tg t) = true.
Proof.
  intros Htg Ht. unfold child_xml. case_bool_decide; cbn [forallb].
  - rewrite forallb_app, Htg. done.
  - rewrite forallb_app, Htg. cbn [forallb andb].
    rewrite forallb_app, (forallb_flat_map _ xml.is_Char) by auto using is_Char_cdata_entity.
    cbn [forallb andb]. rewrite forallb_app, Htg. done.
Qed.

Lemma is_Char_song_doc i t a :
  forallb xml.is_Char i = true -> forallb xml.is_Char t = true ->
  forallb xml.is_Char a = true ->
  forallb xml.is_Char (song_doc i t a) = true.
Proof.
  intros Hi Ht Ha. unfold song_doc.
  repeat first
    [ rewrite forallb_app
    | rewrite is_Char_child_xml by (done || by vm_compute)
    | rewrite (forallb_flat_map _ xml.is_Char) by auto using is_Char_attrib_entity
    | progress cbn [forallb andb] ].
  by vm_compute.
Qed.

Lemma contains_app c s1 s2 : contains c (s1 ++ s2) = contains c s1 || contains c s2.
Proof. apply existsb_app. Qed.

Lemma contains_flat_map c (f : N -> pystr) s :
  (∀ x, contains c [x] = false -> contains c (f x) = false) ->
  contains c s = false -> contains c (flat_map f s) = false.
Proof.
  intros Hf. induction s as [|x s IH]; [done|]. cbn [flat_map].
  change (x :: s) with ([x] ++ s). rewrite !contains_app.
  intros [Hx Hs]%orb_false_elim. by rewrite Hf, IH.
Qed.

Lemma no_CR_attrib_entity s : contains 13 (flat_map attrib_entity s) = false.
Proof.
  induction s as [|c s IH]; [done|]. cbn [flat_map]. rewrite contains_app, IH, orb_false_r.
  unfold attrib_entity.
  destruct (c =? 38); [by vm_compute|]. destruct (c =? 60); [by vm_compute|].
  destruct (c =? 62); [by vm_compute|]. destruct (c =? 34); [by vm_compute|].
  destruct (c =? 13) eqn:H13; [by vm_compute|].
  destruct (c =? 10); [by vm_compute|]. destruct (c =? 9); [by vm_compute|].
  cbn [contains existsb]. by rewrite N.eqb_sym, H13.
Qed.

Lemma no_CR_cdata_entity s :
  contains 13 s = false -> contains 13 (flat_map cdata_entity s) = false.
Proof.
  apply contains_flat_map. intros c Hc. unfold cdata_entity.
  repeat (destruct (_ =? _); [by vm_compute|]). done.
Qed.

Lemma no_CR_child_xml tg t :
  contains 13 tg = false -> contains 13 t = false -> contains 13 (child_xml tg t) = false.
Proof.
  intros Htg Ht. unfold child_xml. case_bool_decide.
  - change (60 :: tg ++ [32; 47; 62]) with ([60] ++ tg ++ [32; 47; 62]).
    by rewrite !contains_app, Htg.
  - change (60 :: tg ++ 62 :: flat_map cdata_entity t ++ 60 :: 47 :: tg ++ [62])
      with ([60] ++ tg ++ [62] ++ flat_map cdata_entity t ++ [60; 47] ++ tg ++ [62]).
    by rewrite !contains_app, Htg, no_CR_cdata_entity.
Qed.

Lemma no_CR_song_doc i t a :
  contains 13 t = false -> contains 13 a = false -> contains 13 (song_doc i t a) = false.
Proof.
  intros Ht Ha. unfold song_doc.
  change (contains 13 ([60] ++ str "song" ++ [32] ++ str "id" ++ [61; 34]
            ++ flat_map attrib_entity i ++ [34; 62]
            ++ child_xml (str "title") t ++ child_xml (str "artist") a
            ++ [60; 47] ++ str "song" ++ [62]) = false).
  rewrite !contains_app, no_CR_attrib_entity, !no_CR_child_xml by (done || by vm_compute).
  by vm_compute.
Qed.

Lemma normalize_eol_id s : contains 13 s = false -> xml.normalize_eol s = s.
Proof.
  induction s as [|c s IH]; [done|]. cbn [contains existsb xml.normalize_eol].
  intros [Hc Hs]%orb_false_elim. rewrite N.eqb_sym, Hc. f_equal. by apply IH.
Qed.

Lemma length_song_doc i t a : ∃ fuel, length (song_doc i t a) = (5 + fuel)%nat.
Proof.
  unfold song_doc. literals. cbn [app length]. eexists. reflexivity.
Qed.

Lemma text_of_child_node tg t : xml.text_of (child_node tg t) = t.
Proof.
  unfold child_node. case_bool_decide as Ht; cbn; [done|]. apply app_nil_r.
Qed.

(** The document of a song parses back to its tree. *)
Lemma parse_song_doc i t a :
  forallb xml.is_Char i = true -> forallb xml.is_Char t = true ->
  forallb xml.is_Char a = true ->
  contains 13 t = false -> contains 13 a = false ->
  xml.parse (song_doc i t a) = Some (song_tree i t a).
Proof.
  intros Hi Ht Ha Hrt Hra. unfold xml.parse.
  rewrite is_Char_song_doc, normalize_eol_id by auto using no_CR_song_doc.
  destruct (length_song_doc i t a) as [fuel ->].
  rewrite <- (app_nil_r (song_doc i t a)), scan_song. done.
Qed.

(** A control character makes the document ill-formed: it is no [Char]. *)
Lemma xml_control_character_not_parsed :
  ∃ out,
    (SongSerializerBasicFabric.serialize
       (Song_init (PStr (str "42")) (PStr [1]) (PStr (str "The Beatles"))) XML []).1 = Ok out
    ∧ xml.parse out = None.
Proof. eexists. rewrite serialize_XML. split; [reflexivity|]. by vm_compute. Qed.

(** C7, as stated, fails: a carriage return in the title is written as it
    is, and an XML parser reads a literal carriage return as a line feed. *)
Lemma xml_carriage_return_not_restored :
  let t := str "Yesterday" ++ [13] in
  let song := Song_init (PStr (str "42")) (PStr t) (PStr (str "The Beatles")) in
  ∃ out, (SongSerializerBasicFabric.serialize song XML []).1 = Ok out
    ∧ xml.parse out
      = Some (song_tree (str "42") (str "Yesterday" ++ [10]) (str "The Beatles"))
    ∧ str "Yesterday" ++ [10] ≠ t.
Proof.
  intros t song. eexists. rewrite serialize_XML.
  split; [reflexivity|]. split; [by vm_compute|]. subst t. by vm_compute.
Qed.

(** C7, amended: for every song whose id, title and artist are strings of
    characters that XML allows (production [Char]), with no carriage return
    in the title and the artist, [serialize(song, 'XML')] returns the
    document [song_doc], in which [&], [<] and [>] of the fields are written
    as [&amp;], [&lt;] and [&gt;]; the XML parser reads it back as a root
    element [song] whose one attribute [id] is the song's id and whose
    children are [title] and [artist], in this order, with the song's title
    and artist as their text. *)
Theorem xml_round_trip (i t a : pystr) (h : heap) :
  forallb xml.is_Char i = true -> forallb xml.is_Char t = true ->
  forallb xml.is_Char a = true ->
  contains 13 t = false -> contains 13 a = false ->
  ∃ out root title_element artist_element,
    (SongSerializerBasicFabric.serialize (Song_init (PStr i) (PStr t) (PStr a)) XML h).1
    = Ok out
    ∧ out = song_doc i t a
    ∧ xml.parse out = Some root
    ∧ xml.name_of root = str "song"
    ∧ xml.attributes_of root = [(str "id", i)]
    ∧ xml.content_of root = [title_element; artist_element]
    ∧ xml.name_of title_element = str "title"
    ∧ xml.text_of title_element = t
    ∧ xml.name_of artist_element = str "artist"
    ∧ xml.text_of artist_element = a.
Proof.
  intros Hi Ht Ha Hrt Hra.
  exists (song_doc i t a), (song_tree i t a),
    (child_node (str "title") t), (child_node (str "artist") a).
  rewrite serialize_XML. cbn [fst]. rewrite song_xml_PStr, parse_song_doc by done.
  split_and!; try done; apply text_of_child_node.
Qed.

Lemma xml_round_trip_witness :
  ∃ out root title_element artist_element,
    (SongSerializerBasicFabric.serialize yesterday XML []).1 = Ok out
    ∧ out = song_doc (str "42") (str "Yesterday") (str "The Beatles")
    ∧ xml.parse out = Some root
    ∧ xml.name_of root = str "song"
    ∧ xml.attributes_of root = [(str "id", str "42")]
    ∧ xml.content_of root = [title_element; artist_element]
    ∧ xml.name_of title_element = str "title"
    ∧ xml.text_of title_element = str "Yesterday"
    ∧ xml.name_of artist_element = str "artist"
    ∧ xml.text_of artist_element = str "The Beatles".
Proof.
  apply (xml_round_trip (str "42") (str "Yesterday") (str "The Beatles") []);
    vm_compute; reflexivity.
Defined.

(** ** Further properties *)

(** *** The classes with instance methods *)

(** X1: [serialize] never touches an element object that existed before
    the call.  For ['XML'] it appends exactly three new objects (the root
    with its two children, which hold the title and the artist), also when
    writing then raises; for any other format tag it leaves the store as it
    was. *)
Theorem serialize_store_effect (song : Song) (format : pystr) (h : heap) :
  (SongSerializerBasicFabric.serialize song format h).2
  = h ++ (if decide (format = XML) then song_elements (length h) song else []).
Proof.
  destruct (decide (format = XML)) as [->|HX].
  - by rewrite serialize_XML.
  - rewrite app_nil_r. destruct (decide (format = JSON)) as [->|HJ].
    + by rewrite serialize_JSON.
    + by rewrite serialize_other.
Qed.

Lemma _raise_serialization_error_raises {A} v :
  ∃ e, et._raise_serialization_error (A:=A) v = Raise e.
Proof.
  destruct v as [s|z]; [by eexists|]. cbn [et._raise_serialization_error].
  rewrite int_repr_cases. destruct (int_fits z); by eexists.
Qed.

Lemma _escape_attrib_returns v : (∃ s, et._escape_attrib v = Ok s) ↔ is_str v.
Proof.
  destruct v as [s|z]; cbn [is_str].
  - rewrite _escape_attrib_PStr. split; [done|]. intros _. by eexists.
  - cbn [et._escape_attrib].
    destruct (_raise_serialization_error_raises (A:=pystr) (PInt z)) as [e ->].
    split; [|done]. intros [s Hs]. discriminate Hs.
Qed.

Lemma render_child_returns tg v : (∃ s, render_child tg v = Ok s) ↔ xml_text_ok v.
Proof.
  destruct v as [s|z]; cbn [xml_text_ok].
  - rewrite render_child_PStr. split; [done|]. intros _. by eexists.
  - unfold render_child. cbn [truthy].
    destruct (Z.eqb_spec z 0) as [->|Hz]; cbn [negb].
    + split; [done|]. intros _. by eexists.
    + cbn [et._escape_cdata].
      destruct (_raise_serialization_error_raises (A:=pystr) (PInt z)) as [e ->].
      split; [|done]. intros [s Hs]. discriminate Hs.
Qed.

(** X2: for a song whose id, title and artist are each a [str] or an
    [int], the XML encoder returns a string exactly when the id is a [str]
    and the title and the artist are each a [str] or the integer [0]; in
    the other cases it raises.  An integer id always raises, and an integer
    title or artist raises unless it is falsy, which the writer skips like
    an empty string. *)
Theorem xml_encoder_succeeds_iff (song : Song) (h : heap) :
  (∃ s, (SongSerializerBasicFabric.serialize song XML h).1 = Ok s)
  ↔ is_str (song_id song) ∧ xml_text_ok (title song) ∧ xml_text_ok (artist song).
Proof.
  rewrite serialize_XML. cbn [fst]. unfold song_xml.
  rewrite <- _escape_attrib_returns.
  rewrite <- (render_child_returns (str "title") (title song)).
  rewrite <- (render_child_returns (str "artist") (artist song)). split.
  - intros [s Hs].
    destruct (et._escape_attrib (song_id song)) as [i|e]; [|discriminate Hs].
    destruct (render_child (str "title") (title song)) as [t|e]; [|discriminate Hs].
    destruct (render_child (str "artist") (artist song)) as [a|e]; [|discriminate Hs].
    split_and!; by eexists.
  - intros ([i ->] & [t ->] & [a ->]). by eexists.
Qed.

(** *** The last variant, function by function *)

(** X9: the dispatcher of [SongSerializerStatiocBasicFabric] never returns
    an encoder.  Called on the class it raises [NameError] for ['JSON'] and
    ['XML'], whose branches read the unbound name [self], and [ValueError]
    with the tag for any other tag; called on an instance it raises
    [TypeError]. *)
Theorem static_dispatcher_never_returns (via : receiver) (format : pystr) (h : heap) :
  SongSerializerStatiocBasicFabric_call._get_serializer via format h
  = (Raise match via with
           | OnInstance => TypeError_positional "_get_serializer" 1 2
           | OnClass =>
               if decide (format = JSON ∨ format = XML) then NameError "self"
               else ValueError format
           end, h).
Proof.
  destruct via; [|done].
  unfold SongSerializerStatiocBasicFabric_call._get_serializer, call,
    SongSerializerStatiocBasicFabric._get_serializer.
  cbn [length decide]. rewrite decide_True by done.
  destruct (decide (format = JSON)) as [->|HJ]; [by rewrite decide_True by auto|].
  destruct (decide (format = XML)) as [->|HX]; [by rewrite decide_True by auto|].
  by rewrite decide_False by tauto.
Qed.

(** X10: only the dispatch of the last variant is broken.  Called on the
    class, its two encoders return what [serialize] of
    [SongSerializerBasicFabric] returns for ['JSON'] and ['XML'] and leave
    the same store; called on an instance they raise [TypeError], the
    instance being an argument too many. *)
Theorem static_encoders_on_class (song : Song) (h : heap) :
  SongSerializerStatiocBasicFabric_call._serialize_to_json OnClass song h
  = SongSerializerBasicFabric.serialize song JSON h
  ∧ SongSerializerStatiocBasicFabric_call._serialize_to_xml OnClass song h
    = SongSerializerBasicFabric.serialize song XML h
  ∧ SongSerializerStatiocBasicFabric_call._serialize_to_json OnInstance song h
    = (Raise (TypeError_positional "_serialize_to_json" 1 2), h)
  ∧ SongSerializerStatiocBasicFabric_call._serialize_to_xml OnInstance song h
    = (Raise (TypeError_positional "_serialize_to_xml" 1 2), h).
Proof.
  split_and!; done.
Qed.

(** *** The JSON text is printable ASCII *)

Lemma printable_hexdigit d : d < 16 -> printable (json.hexdigit d) = true.
Proof.
  intros Hd.
  assert (d = 0 ∨ d = 1 ∨ d = 2 ∨ d = 3 ∨ d = 4 ∨ d = 5 ∨ d = 6 ∨ d = 7 ∨ d = 8
          ∨ d = 9 ∨ d = 10 ∨ d = 11 ∨ d = 12 ∨ d = 13 ∨ d = 14 ∨ d = 15) as Hc by lia.
  repeat destruct Hc as [-> | Hc]; try subst d; vm_compute; reflexivity.
Qed.

Lemma printable_format_04x n : forallb printable (json.format_04x n) = true.
Proof.
  unfold json.format_04x. cbn [forallb].
  by rewrite !printable_hexdigit by (apply N.mod_lt; lia).
Qed.

Lemma printable_escape_char c : forallb printable (escape_char c) = true.
Proof.
  assert (forallb printable (str "\u") = true) as Hu by (by vm_compute).
  unfold escape_char, json.ESCAPE_ASCII.
  destruct (N.eqb_spec c 92) as [->|H92]; [by vm_compute|].
  destruct (N.eqb_spec c 34) as [->|H34]; [by vm_compute|].
  cbn [orb].
  destruct (N.leb_spec 32 c) as [Hlo|Hlo]; cbn [andb negb].
  - destruct (N.leb_spec c 126) as [Hhi|Hhi]; cbn [negb].
    + cbn [forallb]. unfold printable.
      by rewrite (proj2 (N.leb_le 32 c)), (proj2 (N.leb_le c 126)).
    + unfold json.replace_match. rewrite ESCAPE_DCT_other by lia.
      rewrite (proj2 (N.ltb_ge c 32)) by done.
      destruct (c <? 0x10000); cbv zeta;
        by rewrite ?forallb_app, ?Hu, ?printable_format_04x.
  - unfold json.replace_match.
    destruct (N.eq_dec c 8) as [->|]; [by vm_compute|].
    destruct (N.eq_dec c 12) as [->|]; [by vm_compute|].
    destruct (N.eq_dec c 10) as [->|]; [by vm_compute|].
    destruct (N.eq_dec c 13) as [->|]; [by vm_compute|].
    destruct (N.eq_dec c 9) as [->|]; [by vm_compute|].
    rewrite ESCAPE_DCT_other by done. rewrite (proj2 (N.ltb_lt c 32)) by done.
    by rewrite forallb_app, Hu, printable_format_04x.
Qed.

Lemma printable_escape s : forallb printable (json.escape s) = true.
Proof.
  induction s as [|c s IH]; [done|].
  by rewrite escape_cons, forallb_app, printable_escape_char, IH.
Qed.

Lemma printable_uint_chars u : forallb printable (uint_chars u) = true.
Proof. induction u; cbn [uint_chars forallb]; rewrite ?IHu; done. Qed.

Lemma printable_value_chars v : forallb printable (value_chars v) = true.
Proof.
  destruct v as [s|z]; cbn [value_chars].
  - unfold json.encode_basestring_ascii.
    rewrite !forallb_app, printable_escape. done.
  - unfold int_chars. destruct (Z.to_int z); cbn [forallb];
      by rewrite printable_uint_chars.
Qed.

(** X3: for a song whose id, title and artist are each a [str] or an
    [int], [serialize(song, 'JSON')] leaves the store as it was and returns
    a text, unless a field is an integer of more digits than
    [sys.int_max_str_digits] (4300): then it raises [ValueError].  The
    text is made of printable ASCII characters only (space to tilde):
    every other character of a field is written as an escape. *)
Theorem json_text_is_printable_ascii (song : Song) (h : heap) :
  SongSerializerBasicFabric.serialize song JSON h
  = (if json_encodable (song_id song) && json_encodable (title song)
        && json_encodable (artist song)
     then Ok (dumps_chars (payload song))
     else Raise ValueError_int_max_str_digits, h)
  ∧ forallb printable (dumps_chars (payload song)) = true.
Proof.
  split.
  - rewrite serialize_JSON, dumps_cases. unfold payload. cbn [forallb snd].
    by destruct (json_encodable (song_id song)), (json_encodable (title song)),
         (json_encodable (artist song)).
  - unfold dumps_chars, payload, encode_member. cbn [map join fst snd].
    repeat first [ rewrite forallb_app | rewrite printable_value_chars ].
    by vm_compute.
Qed.

(** *** The encoders are injective *)

Lemma child_content_inj (t t' : pystr) :
  (if bool_decide (t = []) then [] else [xml.Text t])
  = (if bool_decide (t' = []) then [] else [xml.Text t']) -> t = t'.
Proof. repeat case_bool_decide; intros E; simplify_eq; done. Qed.

Lemma song_doc_inj i t a i' t' a' :
  song_doc i t a = song_doc i' t' a' -> i = i' ∧ t = t' ∧ a = a'.
Proof.
  intros E.
  pose proof (scan_song 0 i t a []) as H1. pose proof (scan_song 0 i' t' a' []) as H2.
  rewrite !app_nil_r in *. rewrite E, H2 in H1. unfold song_tree in H1.
  unfold child_node in H1.
  injection H1 as -> Ht%child_content_inj Ha%child_content_inj. done.
Qed.

(** X7: the XML encoder is injective on songs with string fields: two
    such songs with the same XML text have the same id, title and artist,
    whatever characters they hold. *)
Theorem xml_encoder_injective (i t a i' t' a' : pystr) (h h' : heap) :
  (SongSerializerBasicFabric.serialize (Song_init (PStr i) (PStr t) (PStr a)) XML h).1
  = (SongSerializerBasicFabric.serialize (Song_init (PStr i') (PStr t') (PStr a')) XML h').1 ->
  i = i' ∧ t = t' ∧ a = a'.
Proof.
  rewrite !serialize_XML. cbn [fst]. rewrite !song_xml_PStr.
  intros E. apply song_doc_inj. congruence.
Qed.

Lemma xml_encoder_injective_witness :
  str "42" = str "42" ∧ str "Yesterday" = str "Yesterday"
  ∧ str "The Beatles" = str "The Beatles".
Proof.
  exact (xml_encoder_injective (str "42") (str "Yesterday") (str "The Beatles")
           (str "42") (str "Yesterday") (str "The Beatles") [] [] eq_refl).
Defined.

(** X8: the JSON encoder is injective on songs whose fields are integers
    of at most [sys.int_max_str_digits] (4300) digits, the ones it writes,
    or strings without a high surrogate directly followed by a low one:
    two such songs with the same JSON text are equal. *)
Theorem json_encoder_injective (song song' : Song) (h h' : heap) :
  json_value (song_id song) -> json_value (title song) -> json_value (artist song) ->
  json_value (song_id song') -> json_value (title song') -> json_value (artist song') ->
  (SongSerializerBasicFabric.serialize song JSON h).1
  = (SongSerializerBasicFabric.serialize song' JSON h').1 ->
  song = song'.
Proof.
  intros Hi Ht Ha Hi' Ht' Ha'.
  rewrite !serialize_JSON_encodable by auto using json_value_encodable.
  cbn [fst]. intros E.
  assert (dumps_chars (payload song) = dumps_chars (payload song')) as E' by congruence.
  clear E. rename E' into E.
  destruct json_text_keys as (Kid & Ktitle & Kartist).
  assert (json.loads (dumps_chars (payload song)) = Some (payload song)) as L
    by (apply loads_dumps_chars; unfold payload;
        repeat (apply Forall_cons; split; [by split|]); constructor).
  assert (json.loads (dumps_chars (payload song')) = Some (payload song')) as L'
    by (apply loads_dumps_chars; unfold payload;
        repeat (apply Forall_cons; split; [by split|]); constructor).
  rewrite E, L' in L. unfold payload in L.
  destruct song as [i t a], song' as [i' t' a'].
  cbn [song_id title artist] in L. by simplify_eq.
Qed.

Lemma json_encoder_injective_witness : yesterday = yesterday.
Proof.
  apply (json_encoder_injective yesterday yesterday [] []);
    try (apply json_text_check; vm_compute; reflexivity).
  reflexivity.
Defined.

(** *** Line ends in the XML round trip *)

Lemma normalize_eol_app_no_CR s1 s2 :
  contains 13 s1 = false ->
  xml.normalize_eol (s1 ++ s2) = s1 ++ xml.normalize_eol s2.
Proof.
  induction s1 as [|c s1 IH]; [done|]. cbn [contains existsb app xml.normalize_eol].
  intros [Hc Hs]%orb_false_elim. rewrite N.eqb_sym, Hc. f_equal. by apply IH.
Qed.

Lemma no_CR_one_cdata_entity c : c ≠ 13 -> contains 13 (cdata_entity c) = false.
Proof.
  intros Hc. unfold cdata_entity.
  repeat (destruct (_ =? _); [by vm_compute|]).
  cbn [contains existsb]. by rewrite (proj2 (N.eqb_neq 13 c)).
Qed.

Lemma cdata_entity_head c :
  c ≠ 10 -> ∃ d r, cdata_entity c = d :: r ∧ d ≠ 10.
Proof.
  intros Hc. unfold cdata_entity.
  repeat (destruct (_ =? _); [by literals; eauto|]). eauto.
Qed.

Lemma normalize_eol_CR_other d r :
  d ≠ 10 -> xml.normalize_eol (13 :: d :: r) = 10 :: xml.normalize_eol (d :: r).
Proof.
  intros Hd. cbn [xml.normalize_eol]. change (13 =? 13) with true. cbv iota.
  by rewrite (proj2 (N.eqb_neq d 10)).
Qed.

Lemma normalize_eol_cdata n t x X :
  (length t <= n)%nat -> x ≠ 10 ->
  xml.normalize_eol (flat_map cdata_entity t ++ x :: X)
  = flat_map cdata_entity (xml.normalize_eol t) ++ xml.normalize_eol (x :: X).
Proof.
  revert t. induction n as [|n IH]; intros t Hn Hx.
  { destruct t; [done|]. simpl in Hn. lia. }
  destruct t as [|c r]; [done|]. cbn [length] in Hn.
  destruct (N.eq_dec c 13) as [->|Hc].
  - assert (cdata_entity 13 = [13]) as E13 by (by vm_compute).
    assert (cdata_entity 10 = [10]) as E10 by (by vm_compute).
    destruct r as [|c' r'].
    + cbn [flat_map]. rewrite E13. cbn [app]. rewrite normalize_eol_CR_other by done.
      change (xml.normalize_eol [13]) with [10]. cbn [flat_map]. by rewrite E10.
    + destruct (N.eq_dec c' 10) as [->|Hc'].
      * cbn [flat_map]. rewrite E13, E10. cbn [app].
        change (xml.normalize_eol (13 :: 10 :: ?l))
          with (10 :: xml.normalize_eol l).
        rewrite IH by (cbn [length] in Hn; (lia || done)).
        cbn [flat_map]. by rewrite E10.
      * rewrite (normalize_eol_CR_other c' r') by done.
        change (flat_map cdata_entity (13 :: c' :: r'))
          with (cdata_entity 13 ++ flat_map cdata_entity (c' :: r')).
        rewrite E13. cbn [app].
        destruct (cdata_entity_head c' Hc') as (d & tl & E & Hd).
        cbn [flat_map]. rewrite E. cbn [app].
        rewrite normalize_eol_CR_other by done.
        rewrite E10. cbn [app]. f_equal.
        rewrite <- IH by (done || lia). cbn [flat_map]. by rewrite E.
  - cbn [flat_map xml.normalize_eol]. rewrite (proj2 (N.eqb_neq c 13)) by done.
    cbn [flat_map]. rewrite <- !app_assoc.
    rewrite normalize_eol_app_no_CR by (by apply no_CR_one_cdata_entity).
    f_equal. apply IH; (lia || done).
Qed.

Lemma normalize_eol_nil t : xml.normalize_eol t = [] <-> t = [].
Proof.
  split; [|by intros ->]. destruct t as [|c r]; [done|].
  cbn [xml.normalize_eol]. by destruct (c =? 13).
Qed.

Lemma normalize_eol_child_xml tg t x X :
  contains 13 tg = false -> x ≠ 10 ->
  xml.normalize_eol (child_xml tg t ++ x :: X)
  = child_xml tg (xml.normalize_eol t) ++ xml.normalize_eol (x :: X).
Proof.
  intros Htg Hx. unfold child_xml.
  destruct (decide (t = [])) as [->|Ht].
  - change (xml.normalize_eol []) with (@nil N). rewrite !bool_decide_true by done.
    change (60 :: tg ++ [32; 47; 62]) with (([60] ++ tg) ++ [32; 47; 62]).
    rewrite <- !app_assoc. rewrite !normalize_eol_app_no_CR; done.
  - rewrite !bool_decide_false by (done || by rewrite normalize_eol_nil).
    change (60 :: tg ++ 62 :: ?f ++ 60 :: 47 :: tg ++ [62])
      with ([60] ++ tg ++ [62] ++ f ++ [60; 47] ++ tg ++ [62]).
    rewrite <- !app_assoc.
    rewrite !normalize_eol_app_no_CR by done.
    cbn [app]. rewrite (normalize_eol_cdata (length t)) by done.
    do 3 f_equal.
    change (60 :: 47 :: tg ++ 62 :: x :: X) with ([60; 47] ++ tg ++ [62] ++ x :: X).
    by rewrite !normalize_eol_app_no_CR.
Qed.

Lemma normalize_eol_song_doc i t a :
  xml.normalize_eol (song_doc i t a)
  = song_doc i (xml.normalize_eol t) (xml.normalize_eol a).
Proof.
  unfold song_doc.
  change (xml.normalize_eol
            (([60] ++ str "song" ++ [32] ++ str "id" ++ [61; 34])
             ++ flat_map attrib_entity i ++ [34; 62]
             ++ child_xml (str "title") t ++ child_xml (str "artist") a
             ++ 60 :: 47 :: str "song" ++ [62])
          = ([60] ++ str "song" ++ [32] ++ str "id" ++ [61; 34])
             ++ flat_map attrib_entity i ++ [34; 62]
             ++ child_xml (str "title") (xml.normalize_eol t)
             ++ child_xml (str "artist") (xml.normalize_eol a)
             ++ 60 :: 47 :: str "song" ++ [62]).
  rewrite !normalize_eol_app_no_CR by (apply no_CR_attrib_entity || by vm_compute).
  do 3 f_equal.
  assert (∃ x X, child_xml (str "artist") a ++ 60 :: 47 :: str "song" ++ [62] = x :: X
                 ∧ x ≠ 10) as (x & X & E & Hx).
  { unfold child_xml. case_bool_decide; cbn [app]; do 2 eexists; split; done. }
  rewrite E, normalize_eol_child_xml, <- E by (done || by vm_compute).
  f_equal.
  rewrite normalize_eol_child_xml by (done || by vm_compute). by f_equal.
Qed.

(** X4: for every song whose id, title and artist are strings of
    characters XML allows, the XML text parses back to a [song] element
    with the id exactly as given, and with the title and the artist as
    given up to line ends: a carriage return followed by a line feed, and
    any other carriage return, comes back as one line feed. *)
Theorem xml_parse_back_normalizes_line_ends (i t a : pystr) (h : heap) :
  forallb xml.is_Char i = true -> forallb xml.is_Char t = true ->
  forallb xml.is_Char a = true ->
  ∃ out,
    (SongSerializerBasicFabric.serialize (Song_init (PStr i) (PStr t) (PStr a)) XML h).1
    = Ok out
    ∧ xml.parse out
      = Some (song_tree i (xml.normalize_eol t) (xml.normalize_eol a)).
Proof.
  intros Hi Ht Ha. rewrite serialize_XML. cbn [fst]. rewrite song_xml_PStr.
  eexists. split; [reflexivity|]. unfold xml.parse.
  rewrite is_Char_song_doc by done. cbv zeta. rewrite normalize_eol_song_doc.
  destruct (length_song_doc i (xml.normalize_eol t) (xml.normalize_eol a)) as [fuel ->].
  rewrite <- (app_nil_r (song_doc _ _ _)), scan_song. done.
Qed.

Lemma xml_parse_back_normalizes_line_ends_witness :
  ∃ out,
    (SongSerializerBasicFabric.serialize
       (Song_init (PStr (str "42")) (PStr (str "Yesterday" ++ [13; 10]))
          (PStr (str "The Beatles"))) XML []).1
    = Ok out
    ∧ xml.parse out
      = Some (song_tree (str "42") (xml.normalize_eol (str "Yesterday" ++ [13; 10]))
                (xml.normalize_eol (str "The Beatles"))).
Proof.
  apply (xml_parse_back_normalizes_line_ends (str "42") (str "Yesterday" ++ [13; 10])
           (str "The Beatles") []); vm_compute; reflexivity.
Defined.

(** *** Characters that XML does not allow *)

Lemma is_Char_of_attrib_entity c :
  forallb xml.is_Char (attrib_entity c) = true -> xml.is_Char c = true.
Proof.
  unfold attrib_entity.
  repeat match goal with
         | |- context [if ?x =? ?k then _ else _] =>
             destruct (N.eqb_spec x k) as [->|_]; [by vm_compute|]
         end.
  cbn [forallb]. by rewrite andb_true_r.
Qed.

Lemma is_Char_of_cdata_entity c :
  forallb xml.is_Char (cdata_entity c) = true -> xml.is_Char c = true.
Proof.
  unfold cdata_entity.
  repeat match goal with
         | |- context [if ?x =? ?k then _ else _] =>
             destruct (N.eqb_spec x k) as [->|_]; [by vm_compute|]
         end.
  cbn [forallb]. by rewrite andb_true_r.
Qed.

Lemma forallb_of_flat_map {A B} (P : B -> bool) (Q : A -> bool) (f : A -> list B) (l : list A) :
  (∀ x, forallb P (f x) = true -> Q x = true) ->
  forallb P (flat_map f l) = true -> forallb Q l = true.
Proof.
  intros Hf. induction l as [|x l IH]; [done|]. cbn [forallb flat_map].
  rewrite forallb_app. intros [Hx Hl]%andb_true_iff. by rewrite Hf, IH.
Qed.

Lemma is_Char_of_child_xml tg t :
  forallb xml.is_Char (child_xml tg t) = true -> forallb xml.is_Char t = true.
Proof.
  unfold child_xml. case_bool_decide as Ht; [by subst t|].
  intros H.
  repeat first [ rewrite forallb_app in H | progress cbn [forallb] in H ].
  rewrite !andb_true_iff in H. destruct_and!.
  eapply (forallb_of_flat_map _ _ cdata_entity); eauto using is_Char_of_cdata_entity.
Qed.

Lemma is_Char_of_song_doc i t a :
  forallb xml.is_Char (song_doc i t a) = true ->
  forallb xml.is_Char i = true ∧ forallb xml.is_Char t = true
  ∧ forallb xml.is_Char a = true.
Proof.
  unfold song_doc. intros H.
  repeat first [ rewrite forallb_app in H | progress cbn [forallb] in H ].
  rewrite !andb_true_iff in H. destruct_and!.
  split_and!; eauto using is_Char_of_child_xml.
  eapply (forallb_of_flat_map _ _ attrib_entity); eauto using is_Char_of_attrib_entity.
Qed.

(** X5: the XML encoder checks no character.  When the id, the title or
    the artist holds a character that XML does not allow (a control
    character other than tab, line feed and carriage return, a surrogate,
    U+FFFE or U+FFFF), [serialize(song, 'XML')] still returns a text, and
    this text is not well-formed: the XML parser rejects it. *)
Theorem xml_text_ill_formed_outside_Char (i t a : pystr) (h : heap) :
  forallb xml.is_Char (i ++ t ++ a) = false ->
  ∃ out,
    (SongSerializerBasicFabric.serialize (Song_init (PStr i) (PStr t) (PStr a)) XML h).1
    = Ok out
    ∧ xml.parse out = None.
Proof.
  intros Hbad. rewrite serialize_XML. cbn [fst]. rewrite song_xml_PStr.
  eexists. split; [reflexivity|]. unfold xml.parse.
  destruct (forallb xml.is_Char (song_doc i t a)) eqn:E; [|done].
  apply is_Char_of_song_doc in E as (Hi & Ht & Ha).
  rewrite !forallb_app, Hi, Ht, Ha in Hbad. discriminate Hbad.
Qed.

Lemma xml_text_ill_formed_outside_Char_witness :
  ∃ out,
    (SongSerializerBasicFabric.serialize
       (Song_init (PStr (str "42")) (PStr (str "Yesterday" ++ [1]))
          (PStr (str "The Beatles"))) XML []).1
    = Ok out
    ∧ xml.parse out = None.
Proof.
  apply (xml_text_ill_formed_outside_Char (str "42") (str "Yesterday" ++ [1])
           (str "The Beatles") []); vm_compute; reflexivity.
Defined.

(** *** Surrogate pairs in the JSON round trip *)

Lemma escape_char_surrogate c :
  0xd800 <= c <= 0xdfff -> escape_char c = str "\u" ++ json.format_04x c.
Proof.
  intros Hc. unfold escape_char, json.ESCAPE_ASCII.
  rewrite (proj2 (N.eqb_neq c 92)), (proj2 (N.eqb_neq c 34)) by lia.
  rewrite (proj2 (N.leb_le 32 c)), (proj2 (N.leb_gt c 126)) by lia.
  cbn [orb andb negb]. unfold json.replace_match.
  rewrite ESCAPE_DCT_other by lia.
  by rewrite (proj2 (N.ltb_ge c 32)), (proj2 (N.ltb_lt c 0x10000)) by lia.
Qed.

Lemma surrogate_range c :
  is_high_surrogate c = true ∨ is_low_surrogate c = true -> 0xd800 <= c <= 0xdfff.
Proof.
  unfold is_high_surrogate, is_low_surrogate.
  intros [[H1 H2]%andb_true_iff | [H1 H2]%andb_true_iff];
    apply N.leb_le in H1, H2; lia.
Qed.

Lemma scanstring_escape_joins n s rest :
  (length s <= n)%nat -> wf_str s ->
  json.scanstring (json.escape s ++ 34 :: rest) = Some (join_pairs s, rest).
Proof.
  revert s. induction n as [|n IH]; intros s Hn Hwf.
  { destruct s; [done|]. simpl in Hn. lia. }
  destruct s as [|c r]; [done|]. cbn [length] in Hn.
  apply Forall_cons in Hwf as [Hc Hwf].
  destruct r as [|c' r'].
  - rewrite escape_cons, <- app_assoc, scanstring_char; [done|done|].
    intros _. by apply (no_low_escape_escape []).
  - cbn [join_pairs].
    destruct (is_high_surrogate c) eqn:Hh; cbn [andb];
      [destruct (is_low_surrogate c') eqn:Hl|].
    + rewrite !escape_cons, !escape_char_surrogate by (apply surrogate_range; auto).
      destruct (format_04x_decode c) as (h3 & h2 & h1 & h0 & -> & D).
      destruct (format_04x_decode c') as (g3 & g2 & g1 & g0 & -> & D').
      pose proof (surrogate_range c (or_introl Hh)).
      pose proof (surrogate_range c' (or_intror Hl)).
      rewrite str_backslash_u. right_nested.
      rewrite (scanstring_pair _ _ _ _ _ _ _ _ c c') by first [done | apply D; lia | apply D'; lia].
      apply Forall_cons in Hwf as [_ Hwf].
      rewrite IH by (done || cbn [length] in Hn; lia). done.
    + rewrite escape_cons, <- app_assoc, scanstring_char; [|done|].
      * rewrite IH by (done || lia). done.
      * intros _. apply no_low_escape_escape. done.
    + rewrite escape_cons, <- app_assoc, scanstring_char; [|done|by rewrite Hh].
      rewrite IH by (done || lia). done.
Qed.

Lemma scan_value_chars_joins v c T :
  wf_value v -> delimiter c ->
  json.scan_value (value_chars v ++ c :: T) = Some (join_value v, c :: T).
Proof.
  intros Hv Hc. destruct v as [s|z]; cbn [wf_value value_chars join_value] in Hv |- *.
  - unfold json.encode_basestring_ascii.
    cbn [app json.scan_value]. change (34 =? 34) with true. cbv iota.
    rewrite <- app_assoc. cbn [app].
    by rewrite (scanstring_escape_joins (length s)).
  - apply (scan_value_chars (PInt z)); done.
Qed.

Lemma scan_member_joins fuel k v c R :
  json_text k -> wf_value v -> delimiter c ->
  json.scan_members (S fuel) (encode_member (k, v) ++ c :: R)
  = if c =? "}"%cp then Some ([(k, join_value v)], R)
    else '(ms, r) ← json.scan_members fuel (json.skip_whitespace R);
         Some ((k, join_value v) :: ms, r).
Proof.
  intros [Hwf Hp] Hv Hc. unfold encode_member, json.encode_basestring_ascii.
  cbn [fst snd]. rewrite <- !app_assoc. cbn [app json.scan_members].
  change (34 =? 34) with true. cbv iota.
  rewrite scanstring_escape by done. cbn [mbind option_bind].
  replace (str ": ") with [":"%cp; " "%cp] by (by vm_compute).
  cbn [app json.skip_whitespace]. change (json.is_whitespace 58) with false.
  cbv iota. change (58 =? 58) with true. cbv iota.
  cbn [json.skip_whitespace]. change (json.is_whitespace 32) with true. cbv iota.
  rewrite skip_whitespace_value_chars, scan_value_chars_joins by done.
  cbn [mbind option_bind]. rewrite skip_whitespace_delimiter by done.
  destruct Hc as [-> | ->]; done.
Qed.

Lemma dumps_chars_three m1 m2 m3 :
  dumps_chars [m1; m2; m3]
  = "{"%cp :: encode_member m1 ++ ","%cp :: " "%cp :: encode_member m2
    ++ ","%cp :: " "%cp :: encode_member m3 ++ ["}"%cp].
Proof.
  unfold dumps_chars. cbn [map join]. literals. right_nested. done.
Qed.

Lemma wf_value_encodable v : wf_value v -> json_encodable v = true.
Proof. by destruct v. Qed.

(** X6: for every song whose fields are strings or integers of at most
    [sys.int_max_str_digits] (4300) digits, the JSON text parses back to
    the members [id], [title] and [artist], in this order, with the song's
    values, except that in a string every high surrogate directly followed
    by a low surrogate comes back as the one code point the pair
    encodes. *)
Theorem json_parse_back_joins_surrogate_pairs (song : Song) (h : heap) :
  wf_value (song_id song) -> wf_value (title song) -> wf_value (artist song) ->
  ∃ out, (SongSerializerBasicFabric.serialize song JSON h).1 = Ok out
    ∧ json.loads out
      = Some [(str "id", join_value (song_id song));
              (str "title", join_value (title song));
              (str "artist", join_value (artist song))].
Proof.
  intros Hi Ht Ha.
  rewrite serialize_JSON_encodable by auto using wf_value_encodable.
  eexists. split; [reflexivity|].
  destruct json_text_keys as (Kid & Ktitle & Kartist).
  unfold payload. rewrite dumps_chars_three. unfold json.loads.
  cbn [json.skip_whitespace]. change (json.is_whitespace 123) with false.
  cbv iota. change (123 =? 123) with true. cbv iota.
  rewrite skip_whitespace_encode_member.
  set (doc := encode_member (str "id", song_id song) ++ _).
  assert (∃ Z, doc = 34 :: Z) as [Z E] by (by eexists).
  assert (3 <= length doc)%nat as Hlen.
  { subst doc. rewrite !length_app. cbn [length]. rewrite !length_app. cbn [length]. lia. }
  destruct (length doc) as [|[|[|fuel]]]; [lia..|]. clear Hlen.
  rewrite E. change (34 =? 125) with false. cbv iota. rewrite <- E.
  subst doc.
  rewrite scan_member_joins by (done || by left). change (44 =? 125) with false. cbv iota.
  cbn [json.skip_whitespace]. change (json.is_whitespace 32) with true. cbv iota.
  rewrite skip_whitespace_encode_member.
  rewrite scan_member_joins by (done || by left). change (44 =? 125) with false. cbv iota.
  cbn [json.skip_whitespace]. change (json.is_whitespace 32) with true. cbv iota.
  rewrite skip_whitespace_encode_member.
  rewrite scan_member_joins by (done || by right). done.
Qed.

Lemma wf_str_check s : forallb (fun c => c <? 0x110000) s = true -> wf_str s.
Proof.
  intros Hwf. apply Forall_forall. intros c Hc%list_elem_of_In.
  rewrite forallb_forall in Hwf. by apply N.ltb_lt, Hwf.
Qed.

Lemma json_parse_back_joins_surrogate_pairs_witness :
  ∃ out,
    (SongSerializerBasicFabric.serialize
       (Song_init (PInt 42) (PStr [0xd83d; 0xde00]) (PStr (str "The Beatles"))) JSON []).1
    = Ok out
    ∧ json.loads out
      = Some [(str "id", join_value (PInt 42));
              (str "title", join_value (PStr [0xd83d; 0xde00]));
              (str "artist", join_value (PStr (str "The Beatles")))].
Proof.
  apply (json_parse_back_joins_surrogate_pairs
           (Song_init (PInt 42) (PStr [0xd83d; 0xde00]) (PStr (str "The Beatles"))) []);
    cbn [song_id title artist wf_value];
    first [ apply wf_str_check; vm_compute; reflexivity | vm_compute; reflexivity ].
Defined.
